(** * Master-data screens: CRUD-with-validation workflow

    Shallow embedding of the four entity screens (Organization, Subsidiary,
    Location, Designation) of the admin tool: the record types of
    [types.ts], the yup schemas, the react-hook-form buffer, the React state
    of each page and the event handlers [onSubmit], [handleEdit],
    [handleDelete], [handleCancel] and "Add New".

    Conventions.
    - JS [number] ids are modelled as [Z]; [number | null] as [option Z].
    - JS strings are modelled as [string] (ASCII text); [toLowerCase] folds
      the letters A-Z.
    - React state setters are the operations of a small state-and-exception
      monad; a handler reads the state of the render it closes over and
      queues updates, as the source does.
    - A reference to an identifier that the module never binds raises
      [ReferenceError], as it does when the handler runs. *)

From Stdlib Require Import String Ascii List ZArith Bool Lia Sorted.
Import ListNotations.
Open Scope string_scope.
Open Scope list_scope.
Open Scope Z_scope.

Set Implicit Arguments.

(* ================================================================== *)
(** * JavaScript strings *)

Module JS.

Definition isUpper (c : ascii) : bool :=
  let n := nat_of_ascii c in (65 <=? n)%nat && (n <=? 90)%nat.

Definition lowerChar (c : ascii) : ascii :=
  if isUpper c then ascii_of_nat (nat_of_ascii c + 32) else c.

(** [String.prototype.toLowerCase] on ASCII text. *)
Fixpoint toLowerCase (s : string) : string :=
  match s with
  | EmptyString => EmptyString
  | String c r => String (lowerChar c) (toLowerCase r)
  end.

Definition isDigit (c : ascii) : bool :=
  let n := nat_of_ascii c in (48 <=? n)%nat && (n <=? 57)%nat.

Fixpoint allDigits (s : string) : bool :=
  match s with
  | EmptyString => true
  | String c r => isDigit c && allDigits r
  end.

(** [value.search(/^[0-9]{lo,hi}$/) !== -1] *)
Definition matchesDigits (lo hi : nat) (s : string) : bool :=
  allDigits s && (lo <=? String.length s)%nat && (String.length s <=? hi)%nat.

(** [a === b] on strings. *)
Definition strictEq (a b : string) : bool := String.eqb a b.

(** [id !== editingId] where [editingId : number | null]. *)
Definition idNotEq (i : Z) (e : option Z) : bool :=
  match e with
  | None => true
  | Some j => negb (i =? j)
  end.

(** [id === editingId] *)
Definition idEq (i : Z) (e : option Z) : bool := negb (idNotEq i e).

(** [Math.max(...xs)] of a non-empty argument list [x, ...xs]. *)
Definition Math_max (x : Z) (xs : list Z) : Z := fold_left Z.max xs x.

End JS.

(* ================================================================== *)
(** * yup: string schemas *)

Module Yup.

(** The [type] recorded with a field error: the name of the failing yup
    test, or ["manual"] for an error set by the page through [setError]. *)
Inductive ErrType := TRequired | TEmail | TMatches | TMax | TManual.

(** The error taxonomy of the workflow. *)
Inductive ErrorKind := MissingRequiredField | FormatViolation | DuplicateKey.

Definition classify (t : ErrType) : ErrorKind :=
  match t with
  | TRequired => MissingRequiredField
  | TEmail | TMatches | TMax => FormatViolation
  | TManual => DuplicateKey
  end.

Record FieldError := mkFieldError
  { feField : string; feType : ErrType; feMessage : string }.

(** One test of a [yup.string()] chain. *)
Record Test := mkTest
  { tType : ErrType; tPasses : string -> bool; tMessage : string }.

(** [.required(msg)]: a string value must be non-empty. *)
Definition required (msg : string) : Test :=
  mkTest TRequired (fun v => negb (String.eqb v EmptyString)) msg.

(** [.matches(/^[0-9]{lo,hi}$/, msg)] *)
Definition matchesDigits (lo hi : nat) (msg : string) : Test :=
  mkTest TMatches (JS.matchesDigits lo hi) msg.

(** [.max(n, msg)] *)
Definition max (n : nat) (msg : string) : Test :=
  mkTest TMax (fun v => (String.length v <=? n)%nat) msg.

(** [.email(msg)]: the empty string is excluded from the test; the shape
    itself is the regular expression of the yup release in use, which is
    not part of the repository and is taken as a parameter. *)
Definition email (rEmail : string -> bool) (msg : string) : Test :=
  mkTest TEmail (fun v => String.eqb v EmptyString || rEmail v) msg.

(** A field of [yup.object({...})]: its name, how to read it from the
    values, and its chain of tests in declaration order. *)
Record Field (V : Type) := mkField
  { fName : string; fGet : V -> string; fTests : list Test }.

Definition Schema (V : Type) := list (Field V).

(** First failing test of a chain. *)
Fixpoint firstFailure (ts : list Test) (v : string) : option Test :=
  match ts with
  | [] => None
  | t :: r => if tPasses t v then firstFailure r v else Some t
  end.

Definition checkField {V} (f : Field V) (values : V) : option FieldError :=
  match firstFailure (fTests f) (fGet f values) with
  | None => None
  | Some t => Some (mkFieldError (fName f) (tType t) (tMessage t))
  end.

(** The resolver: every field is checked ([abortEarly: false]) and the
    first error of each field is kept. *)
Fixpoint validate {V} (sch : Schema V) (values : V) : list FieldError :=
  match sch with
  | [] => []
  | f :: r =>
      match checkField f values with
      | None => validate r values
      | Some e => e :: validate r values
      end
  end.

(** The error reported for a given field, if any. *)
Definition errorOn (errs : list FieldError) (field : string) : option FieldError :=
  find (fun e => String.eqb (feField e) field) errs.

End Yup.

(* ================================================================== *)
(** * Record types ([types.ts]) and form values *)

Module Organization.
Record t := mk
  { id : Z;
    organizationName : string;
    organizationCode : string;
    registrationNumber : string;
    emailId : string;
    contactNumber : string;
    addressLine1 : string;
    city : string;
    pinCode : string;
    tenantCode : string;
    status : string;
    financialYearStart : string }.
End Organization.

Module Subsidiary.
Record t := mk
  { id : Z;
    subsidiaryName : string;
    subsidiaryCode : string;
    subsidiaryDescription : string;
    locationCode : string;
    organizationCode : string }.
End Subsidiary.

Module Location.
Record t := mk
  { id : Z;
    locationCode : string;
    locationName : string;
    regionCode : string;
    countryCode : string;
    stateCode : string;
    city : string;
    pincode : string }.
End Location.

Module Designation.
Record t := mk
  { id : Z;
    designationCode : string;
    designationName : string }.
End Designation.

(** [yup.InferType<typeof organizationSchema>] *)
Module OrganizationFormValues.
Record t := mk
  { organizationName : string;
    organizationCode : string;
    registrationNumber : string;
    emailId : string;
    contactNumber : string;
    addressLine1 : string;
    city : string;
    pinCode : string;
    tenantCode : string;
    status : string;
    financialYearStart : string }.
End OrganizationFormValues.

Module SubsidiaryFormValues.
Record t := mk
  { subsidiaryName : string;
    subsidiaryCode : string;
    subsidiaryDescription : string;
    locationCode : string;
    organizationCode : string }.
End SubsidiaryFormValues.

Module LocationFormValues.
Record t := mk
  { locationCode : string;
    locationName : string;
    regionCode : string;
    countryCode : string;
    stateCode : string;
    city : string;
    pincode : string }.
End LocationFormValues.

Module DesignationFormValues.
Record t := mk
  { designationCode : string;
    designationName : string }.
End DesignationFormValues.

(* ================================================================== *)
(** * The shape shared by the four screens

    Every page is written against one entity: its row type, the values of
    its form, the natural-key field and the three object expressions that
    the handlers build. *)

Class Entity := mkEntity
  { Row : Type;
    Values : Type;
    rowId : Row -> Z;
    (** the natural key, on a stored row and in submitted data *)
    rowKey : Row -> string;
    dataKey : Values -> string;
    keyField : string;
    keyMessage : string;
    (** [{ id, ...data }] *)
    newRow : Z -> Values -> Row;
    (** [{ ...row, ...data, <key>: row.<key> }] *)
    patchRow : Row -> Values -> Row;
    (** the object passed to [reset] when a row is loaded for editing *)
    rowValues : Row -> Values;
    (** [defaultValues] of [useForm] *)
    emptyValues : Values;
    rowEqDec : forall a b : Row, {a = b} + {a <> b};
    rowId_newRow : forall i d, rowId (newRow i d) = i;
    rowKey_newRow : forall i d, rowKey (newRow i d) = dataKey d;
    rowValues_newRow : forall i d, rowValues (newRow i d) = d;
    rowId_patchRow : forall r d, rowId (patchRow r d) = rowId r;
    rowKey_patchRow : forall r d, rowKey (patchRow r d) = rowKey r;
    dataKey_rowValues : forall r, dataKey (rowValues r) = rowKey r }.

Local Ltac entity_law :=
  intros; try match goal with d : _ |- _ = ?d => destruct d end; reflexivity.

Module O := Organization.
Module OV := OrganizationFormValues.
Module S := Subsidiary.
Module SV := SubsidiaryFormValues.
Module L := Location.
Module LV := LocationFormValues.
Module D := Designation.
Module DV := DesignationFormValues.

Definition Organization_eq_dec (a b : O.t) : {a = b} + {a <> b}.
Proof. decide equality; first [apply string_dec | apply Z.eq_dec]. Defined.

Definition Subsidiary_eq_dec (a b : S.t) : {a = b} + {a <> b}.
Proof. decide equality; first [apply string_dec | apply Z.eq_dec]. Defined.

Definition Location_eq_dec (a b : L.t) : {a = b} + {a <> b}.
Proof. decide equality; first [apply string_dec | apply Z.eq_dec]. Defined.

Definition Designation_eq_dec (a b : D.t) : {a = b} + {a <> b}.
Proof. decide equality; first [apply string_dec | apply Z.eq_dec]. Defined.

#[export] Program Instance OrganizationE : Entity :=
  {| Row := O.t;
     Values := OV.t;
     rowId := O.id;
     rowKey := O.organizationCode;
     dataKey := OV.organizationCode;
     keyField := "organizationCode";
     keyMessage := "Organization Code already exists. It must be unique.";
     newRow := fun id data =>
       O.mk id (OV.organizationName data) (OV.organizationCode data)
         (OV.registrationNumber data) (OV.emailId data)
         (OV.contactNumber data) (OV.addressLine1 data) (OV.city data)
         (OV.pinCode data) (OV.tenantCode data) (OV.status data)
         (OV.financialYearStart data);
     patchRow := fun row data =>
       O.mk (O.id row) (OV.organizationName data) (O.organizationCode row)
         (OV.registrationNumber data) (OV.emailId data)
         (OV.contactNumber data) (OV.addressLine1 data) (OV.city data)
         (OV.pinCode data) (OV.tenantCode data) (OV.status data)
         (OV.financialYearStart data);
     rowValues := fun r =>
       OV.mk (O.organizationName r) (O.organizationCode r)
         (O.registrationNumber r) (O.emailId r) (O.contactNumber r)
         (O.addressLine1 r) (O.city r) (O.pinCode r) (O.tenantCode r)
         (O.status r) (O.financialYearStart r);
     emptyValues := OV.mk EmptyString EmptyString EmptyString EmptyString EmptyString EmptyString EmptyString EmptyString EmptyString EmptyString EmptyString;
     rowEqDec := Organization_eq_dec |}.
Solve All Obligations with entity_law.

#[export] Program Instance SubsidiaryE : Entity :=
  {| Row := S.t;
     Values := SV.t;
     rowId := S.id;
     rowKey := S.subsidiaryCode;
     dataKey := SV.subsidiaryCode;
     keyField := "subsidiaryCode";
     keyMessage := "Subsidiary Code already exists. It must be unique.";
     newRow := fun id data =>
       S.mk id (SV.subsidiaryName data) (SV.subsidiaryCode data)
         (SV.subsidiaryDescription data) (SV.locationCode data)
         (SV.organizationCode data);
     patchRow := fun row data =>
       S.mk (S.id row) (SV.subsidiaryName data) (S.subsidiaryCode row)
         (SV.subsidiaryDescription data) (SV.locationCode data)
         (SV.organizationCode data);
     rowValues := fun r =>
       SV.mk (S.subsidiaryName r) (S.subsidiaryCode r)
         (S.subsidiaryDescription r) (S.locationCode r)
         (S.organizationCode r);
     emptyValues := SV.mk EmptyString EmptyString EmptyString EmptyString EmptyString;
     rowEqDec := Subsidiary_eq_dec |}.
Solve All Obligations with entity_law.

#[export] Program Instance LocationE : Entity :=
  {| Row := L.t;
     Values := LV.t;
     rowId := L.id;
     rowKey := L.locationCode;
     dataKey := LV.locationCode;
     keyField := "locationCode";
     keyMessage := "Location Code already exists. It must be unique.";
     newRow := fun id data =>
       L.mk id (LV.locationCode data) (LV.locationName data)
         (LV.regionCode data) (LV.countryCode data) (LV.stateCode data)
         (LV.city data) (LV.pincode data);
     patchRow := fun row data =>
       L.mk (L.id row) (L.locationCode row) (LV.locationName data)
         (LV.regionCode data) (LV.countryCode data) (LV.stateCode data)
         (LV.city data) (LV.pincode data);
     rowValues := fun r =>
       LV.mk (L.locationCode r) (L.locationName r) (L.regionCode r)
         (L.countryCode r) (L.stateCode r) (L.city r) (L.pincode r);
     emptyValues := LV.mk EmptyString EmptyString EmptyString EmptyString EmptyString EmptyString EmptyString;
     rowEqDec := Location_eq_dec |}.
Solve All Obligations with entity_law.

#[export] Program Instance DesignationE : Entity :=
  {| Row := D.t;
     Values := DV.t;
     rowId := D.id;
     rowKey := D.designationCode;
     dataKey := DV.designationCode;
     keyField := "designationCode";
     keyMessage := "Designation Code already exists. It must be unique.";
     newRow := fun id data =>
       D.mk id (DV.designationCode data) (DV.designationName data);
     patchRow := fun row data =>
       D.mk (D.id row) (D.designationCode row) (DV.designationName data);
     rowValues := fun r => DV.mk (D.designationCode r) (D.designationName r);
     emptyValues := DV.mk EmptyString EmptyString;
     rowEqDec := Designation_eq_dec |}.
Solve All Obligations with entity_law.

(* ================================================================== *)
(** * react-hook-form: the edit buffer *)

Module RHF.

Record Form (V : Type) := mkForm
  { values : V;
    defaultValues : V;
    errors : list Yup.FieldError }.

(** [useForm({ defaultValues })] *)
Definition useForm {V} (defaults : V) : Form V := mkForm defaults defaults [].

(** [reset()] restores the default values; [reset(v)] loads [v] and makes
    it the new default. Both clear the errors. *)
Definition reset {V} (v : option V) (f : Form V) : Form V :=
  match v with
  | None => mkForm (defaultValues f) (defaultValues f) []
  | Some v => mkForm v v []
  end.

(** [setError(field, { type: "manual", message })] *)
Definition setError {V} (field message : string) (f : Form V) : Form V :=
  mkForm (values f) (defaultValues f)
    (Yup.mkFieldError field Yup.TManual message
       :: filter (fun e => negb (String.eqb (Yup.feField e) field)) (errors f)).

(** The errors computed by the resolver replace the previous ones. *)
Definition setErrors {V} (errs : list Yup.FieldError) (f : Form V) : Form V :=
  mkForm (values f) (defaultValues f) errs.

(** The user edits the inputs. *)
Definition setValues {V} (v : V) (f : Form V) : Form V :=
  mkForm v (defaultValues f) (errors f).

End RHF.

(* ================================================================== *)
(** * Page state and handlers *)

(** The four [useState] cells of a page and its form. *)
Record PageState `{E : Entity} := mkPageState
  { rows : list Row;
    editingId : option Z;
    isFormOpen : bool;
    viewed : option Row;
    form : RHF.Form Values }.
Arguments PageState E : clear implicits.
Arguments mkPageState {E}.

Inductive Exn := ReferenceError (name : string).

(** How a handler ends: normally, or by an uncaught exception; either way
    with the state updates queued so far. *)
Inductive Completion (St : Type) :=
| Normal (s : St)
| Throw (e : Exn) (s : St).
Arguments Normal {St}.
Arguments Throw {St}.

Definition stateOf {St} (c : Completion St) : St :=
  match c with Normal s => s | Throw _ s => s end.

Definition completed {St} (c : Completion St) : bool :=
  match c with Normal _ => true | Throw _ _ => false end.

Definition Handler (St : Type) := St -> Completion St.

Definition skip {St} : Handler St := fun s => Normal s.

Definition seq {St} (h k : Handler St) : Handler St :=
  fun s => match h s with Normal s' => k s' | Throw e s' => Throw e s' end.

Definition throw {St} (e : Exn) : Handler St := fun s => Throw e s.

(** The handler is a closure over the values of the current render. *)
Definition closure {St} (k : St -> Handler St) : Handler St := fun s => k s s.

Declare Scope handler_scope.
Delimit Scope handler_scope with handler.
Notation "h ;; k" := (seq h k) (at level 61, right associativity) : handler_scope.
Open Scope handler_scope.

Section Handlers.
Context {E : Entity}.

Definition setRows (f : list Row -> list Row) : Handler (PageState E) :=
  fun s => Normal (mkPageState (f (rows s)) (editingId s) (isFormOpen s) (viewed s) (form s)).

Definition setEditingId (v : option Z) : Handler (PageState E) :=
  fun s => Normal (mkPageState (rows s) v (isFormOpen s) (viewed s) (form s)).

Definition setIsFormOpen (b : bool) : Handler (PageState E) :=
  fun s => Normal (mkPageState (rows s) (editingId s) b (viewed s) (form s)).

Definition setView (v : option Row) : Handler (PageState E) :=
  fun s => Normal (mkPageState (rows s) (editingId s) (isFormOpen s) v (form s)).

Definition onForm (f : RHF.Form Values -> RHF.Form Values) : Handler (PageState E) :=
  fun s => Normal (mkPageState (rows s) (editingId s) (isFormOpen s) (viewed s) (f (form s))).

Definition reset (v : option Values) : Handler (PageState E) := onForm (RHF.reset v).

Definition setError (field message : string) : Handler (PageState E) :=
  onForm (RHF.setError field message).

(** A uniqueness test of [onSubmit]:
    [rows.some(row => row.F.toLowerCase() === data.F.toLowerCase()
                      && row.id !== editingId)]
    together with the field and message given to [setError]. *)
Record UniqueCheck := mkUniqueCheck
  { ucField : string;
    ucRow : Row -> string;
    ucData : Values -> string;
    ucMessage : string }.

Definition isDuplicate (c : UniqueCheck) (rows : list Row)
    (editingId : option Z) (data : Values) : bool :=
  existsb
    (fun row =>
       JS.strictEq (JS.toLowerCase (ucRow c row)) (JS.toLowerCase (ucData c data))
       && JS.idNotEq (rowId row) editingId)
    rows.

(** The check on the natural key. *)
Definition keyCheck : UniqueCheck := mkUniqueCheck keyField rowKey dataKey keyMessage.

(** [rows.length > 0 ? Math.max(...rows.map((r) => r.id)) + 1 : 1] *)
Definition nextId (rows : list Row) : Z :=
  match map rowId rows with
  | [] => 1
  | x :: xs => JS.Math_max x xs + 1
  end.

(** [[...prev, newRow]] *)
Definition appendRow (r : Row) (prev : list Row) : list Row := prev ++ [r].

(** [prev.map((row) => row.id === editingId ? { ...row, ...data, key: row.key } : row)] *)
Definition updateRows (editingId : Z) (data : Values) (prev : list Row) : list Row :=
  map (fun row => if rowId row =? editingId then patchRow row data else row) prev.

(** [prev.filter((row) => row.id !== id)] *)
Definition deleteRow (id : Z) (prev : list Row) : list Row :=
  filter (fun row => negb (rowId row =? id)) prev.

(** What differs from one page source to the next. *)
Record Page := mkPage
  { (** the yup schema given to [yupResolver] *)
    schema : Yup.Schema Values;
    (** the uniqueness tests at the head of [onSubmit], in order *)
    uniqueChecks : list UniqueCheck;
    (** whether [setError] is among the names taken from [useForm] *)
    setErrorBound : bool;
    (** whether Add New, [handleEdit] and [handleDelete] call [setView...(null)]
        (pages whose view is an inline panel do; pages whose view is a
        modal overlay do not) *)
    handlersCloseView : bool;
    (** whether the prefill effect clears with [reset({ ...empty })]
        rather than with [reset()] *)
    effectResetsToEmpty : bool }.

Variable p : Page.

(** A call [setError(...)] in the body of [onSubmit]. *)
Definition callSetError (field message : string) : Handler (PageState E) :=
  if setErrorBound p then setError field message
  else throw (ReferenceError "setError").

(** The tail of [onSubmit]: create or update, then close the form. *)
Definition save (render : PageState E) (data : Values) : Handler (PageState E) :=
  match editingId render with
  | None =>
      let newRow := newRow (nextId (rows render)) data in
      setRows (appendRow newRow)
  | Some editingId =>
      setRows (updateRows editingId data)
  end ;;
  setEditingId None ;;
  reset None ;;
  setIsFormOpen false.

(** The head of [onSubmit]: each test that finds a duplicate reports it
    and returns. *)
Fixpoint checked (render : PageState E) (data : Values)
    (checks : list UniqueCheck) (k : Handler (PageState E)) : Handler (PageState E) :=
  match checks with
  | [] => k
  | c :: cs =>
      if isDuplicate c (rows render) (editingId render) data
      then callSetError (ucField c) (ucMessage c)
      else checked render data cs k
  end.

Definition onSubmit (data : Values) : Handler (PageState E) :=
  closure (fun render => checked render data (uniqueChecks p) (save render data)).

(** [handleSubmit(onSubmit)]: the resolver runs first; [onSubmit] is only
    called with values that pass the schema. *)
Definition handleSubmit : Handler (PageState E) :=
  closure (fun render =>
    let data := RHF.values (form render) in
    match Yup.validate (schema p) data with
    | [] => onForm (RHF.setErrors []) ;; onSubmit data
    | errs => onForm (RHF.setErrors errs)
    end).

Definition closeViewIf (b : bool) : Handler (PageState E) :=
  if b then setView None else skip.

Definition handleAddNew : Handler (PageState E) :=
  setEditingId None ;;
  reset None ;;
  setIsFormOpen true ;;
  closeViewIf (handlersCloseView p).

Definition handleEdit (row : Row) : Handler (PageState E) :=
  setEditingId (Some (rowId row)) ;;
  setIsFormOpen true ;;
  closeViewIf (handlersCloseView p).

Definition isViewing (s : PageState E) (id : Z) : bool :=
  match viewed s with
  | Some v => rowId v =? id
  | None => false
  end.

(** [confirmed] is the answer of [window.confirm]. *)
Definition handleDelete (confirmed : bool) (id : Z) : Handler (PageState E) :=
  closure (fun render =>
    if confirmed then
      setRows (deleteRow id) ;;
      (if JS.idEq id (editingId render)
       then setEditingId None ;; reset None ;; setIsFormOpen false
       else skip) ;;
      (if handlersCloseView p
       then closeViewIf (isViewing render id)
       else skip)
    else skip).

Definition handleCancel : Handler (PageState E) :=
  setEditingId None ;;
  reset None ;;
  setIsFormOpen false.

(** [rows.find((r) => r.id === editingId) ?? null] *)
Definition editingRow (s : PageState E) : option Row :=
  match editingId s with
  | None => None
  | Some i => find (fun r => rowId r =? i) (rows s)
  end.

(** The body of the prefill effect. *)
Definition prefill (s : PageState E) : Handler (PageState E) :=
  match editingRow s with
  | Some r => reset (Some (rowValues r))
  | None => reset (if effectResetsToEmpty p then Some emptyValues else None)
  end.

Definition sameRow (a b : option Row) : bool :=
  match a, b with
  | None, None => true
  | Some x, Some y => if rowEqDec x y then true else false
  | _, _ => false
  end.

(** After a render the effect runs when [editingRow] has changed. *)
Definition afterRender (before after : PageState E) : PageState E :=
  if sameRow (editingRow before) (editingRow after) then after
  else stateOf (prefill after after).

(** The state once the page is mounted on its seed data. *)
Definition mount (seed : list Row) : PageState E :=
  let s := mkPageState seed None false None (RHF.useForm emptyValues) in
  stateOf (prefill s s).

(** What the user can do on the page. *)
Inductive Event :=
| ClickAddNew
| ClickEdit (row : Row)
| ClickView (row : Row)
| ClickCloseView
| ClickDelete (id : Z) (confirmed : bool)
| ClickCancel
| Typing (v : Values)
| SubmitForm.

Definition dispatch (ev : Event) : Handler (PageState E) :=
  match ev with
  | ClickAddNew => handleAddNew
  | ClickEdit row => handleEdit row
  | ClickView row => setView (Some row)
  | ClickCloseView => setView None
  | ClickDelete id confirmed => handleDelete confirmed id
  | ClickCancel => handleCancel
  | Typing v => onForm (RHF.setValues v)
  | SubmitForm => handleSubmit
  end.

(** The row buttons exist for the rows of the table; the form and its
    inputs exist while the form is open. *)
Definition enabled (s : PageState E) (ev : Event) : Prop :=
  match ev with
  | ClickEdit row | ClickView row => In row (rows s)
  | ClickDelete id _ => In id (map rowId (rows s))
  | ClickCancel | Typing _ | SubmitForm => isFormOpen s = true
  | ClickAddNew | ClickCloseView => True
  end.

Definition fire (ev : Event) (s : PageState E) : PageState E :=
  afterRender s (stateOf (dispatch ev s)).

Inductive reachable (seed : list Row) : PageState E -> Prop :=
| reach_mount : reachable seed (mount seed)
| reach_fire s ev :
    reachable seed s -> enabled s ev -> reachable seed (fire ev s).

(** Running a sequence of events from a state. *)
Fixpoint run (evs : list Event) (s : PageState E) : PageState E :=
  match evs with
  | [] => s
  | ev :: r => run r (fire ev s)
  end.

End Handlers.

Arguments Page E : clear implicits.
Arguments UniqueCheck E : clear implicits.
Arguments Event E : clear implicits.
Arguments Typing {E} & v.
Arguments ClickEdit {E} & row.
Arguments ClickView {E} & row.

(* ================================================================== *)
(** * The schemas *)

Definition organizationSchema (rEmail : string -> bool) : Yup.Schema OV.t :=
  [ Yup.mkField "organizationName" OV.organizationName
      [Yup.required "Organization Name is required"];
    Yup.mkField "organizationCode" OV.organizationCode
      [Yup.required "Organization Code is required"];
    Yup.mkField "registrationNumber" OV.registrationNumber
      [Yup.required "Registration Number is required"];
    Yup.mkField "emailId" OV.emailId
      [Yup.email rEmail "Invalid email"; Yup.required "Email ID is required"];
    Yup.mkField "contactNumber" OV.contactNumber
      [Yup.required "Contact Number is required";
       Yup.matchesDigits 8 15 "Contact must be 8–15 digits"];
    Yup.mkField "addressLine1" OV.addressLine1
      [Yup.required "Address Line 1 is required"];
    Yup.mkField "city" OV.city [Yup.required "City is required"];
    Yup.mkField "pinCode" OV.pinCode
      [Yup.required "Pin Code is required";
       Yup.matchesDigits 5 6 "Pin Code must be 5–6 digits"];
    Yup.mkField "tenantCode" OV.tenantCode
      [Yup.required "Tenant Code is required"];
    Yup.mkField "status" OV.status [Yup.required "Status is required"];
    Yup.mkField "financialYearStart" OV.financialYearStart
      [Yup.required "Financial Year Start is required"] ].

Definition subsidiarySchema : Yup.Schema SV.t :=
  [ Yup.mkField "subsidiaryName" SV.subsidiaryName
      [Yup.required "Subsidiary Name is required"];
    Yup.mkField "subsidiaryCode" SV.subsidiaryCode
      [Yup.required "Subsidiary Code is required";
       Yup.max 20 "Max 20 characters"];
    Yup.mkField "subsidiaryDescription" SV.subsidiaryDescription
      [Yup.required "Subsidiary Description is required"];
    Yup.mkField "locationCode" SV.locationCode
      [Yup.required "Location Code is required"];
    Yup.mkField "organizationCode" SV.organizationCode
      [Yup.required "Organization Code is required"] ].

(** The two Location sources spell the pincode message differently; the
    rules are the same. *)
Definition locationSchema (pincodeMessage : string) : Yup.Schema LV.t :=
  [ Yup.mkField "locationCode" LV.locationCode
      [Yup.required "Location Code is required"];
    Yup.mkField "locationName" LV.locationName
      [Yup.required "Location Name is required"];
    Yup.mkField "regionCode" LV.regionCode
      [Yup.required "Region Code is required"];
    Yup.mkField "countryCode" LV.countryCode
      [Yup.required "Country Code is required"];
    Yup.mkField "stateCode" LV.stateCode
      [Yup.required "State Code is required"];
    Yup.mkField "city" LV.city [Yup.required "City is required"];
    Yup.mkField "pincode" LV.pincode
      [Yup.required "Pincode is required";
       Yup.matchesDigits 5 6 pincodeMessage] ].

Definition designationSchema : Yup.Schema DV.t :=
  [ Yup.mkField "designationCode" DV.designationCode
      [Yup.required "Designation Code is required"];
    Yup.mkField "designationName" DV.designationName
      [Yup.required "Designation Name is required"] ].

(* ================================================================== *)
(** * The pages

    Each entity has two sources: an earlier one whose view is an inline
    panel above the form, and a later one built from the shared components
    ([PageHeader], [FormCard], [ViewModal]) whose view is a modal overlay. *)

(** The second uniqueness test of the Organization page of
    [unnamed/part_005] (lines 112-124). *)
Definition tenantCheck : UniqueCheck OrganizationE :=
  @mkUniqueCheck OrganizationE "tenantCode" O.tenantCode OV.tenantCode
    "Tenant Code already exists. It must be unique.".

(** [src/pages/DesignationPage.tsx], lines 1-321. *)
Definition DesignationPage_v1 : Page DesignationE :=
  @mkPage DesignationE designationSchema [] false true true.

(** [src/pages/DesignationPage.tsx], lines 322-606. *)
Definition DesignationPage_v2 : Page DesignationE :=
  @mkPage DesignationE designationSchema [keyCheck] true false false.

(** [src/pages/DesignationPage.tsx], lines 607-1227 (Organization). *)
Definition OrganizationPage_v1 (rEmail : string -> bool) : Page OrganizationE :=
  @mkPage OrganizationE (organizationSchema rEmail) [keyCheck] true false true.

(** [unnamed/part_005], lines 1-466 (Organization). *)
Definition OrganizationPage_v2 (rEmail : string -> bool) : Page OrganizationE :=
  @mkPage OrganizationE (organizationSchema rEmail) [@keyCheck OrganizationE; tenantCheck] true false false.

(** [unnamed/part_005], lines 467-901 (Subsidiary). *)
Definition SubsidiaryPage_v1 : Page SubsidiaryE :=
  @mkPage SubsidiaryE subsidiarySchema [] true true true.

(** [unnamed/part_005], lines 902-1259 (Subsidiary). *)
Definition SubsidiaryPage_v2 : Page SubsidiaryE :=
  @mkPage SubsidiaryE subsidiarySchema [keyCheck] true false false.

(** [unnamed/part_006] (Location). *)
Definition LocationPage_v1 : Page LocationE :=
  @mkPage LocationE (locationSchema "Pincode must be 5–6 digits") [] false true true.

(** [src/pages/LocationPage.tsx]: [onSubmit] calls [setError], but the
    names taken from [useForm] (lines 41-46) are [register],
    [handleSubmit], [reset] and [formState] only. *)
Definition LocationPage_v2 : Page LocationE :=
  @mkPage LocationE (locationSchema "Pincode must be 5â€“6 digits") [keyCheck] false false false.

(** ** Seed data *)

Definition initialDesignations : list D.t :=
  [ D.mk 1 "DRV" "Driver";
    D.mk 2 "SEC" "Security" ].

Definition initialLocations : list L.t :=
  [ L.mk 1 "AALMYS" "PANTNAGAR" "UK" "IN" "UK" "PANTNAGAR" "12345" ].

Definition initialOrganizations : list O.t :=
  [ O.mk 1 "Automotive Axles Limited" "AAL" "7797779699" "info@autoaxle.com"
      "9821719750" "Hootagalli Industrial Area, Off Hunsur Road," "Mysore"
      EmptyString "AAL" "Inactive" "Month 4" ].

(* ================================================================== *)
(** * Vocabulary of the properties *)

Definition Digit (c : ascii) : Prop := (48 <= nat_of_ascii c <= 57)%nat.

(** A string of [lo] to [hi] decimal digits. *)
Definition DigitsBetween (lo hi : nat) (s : string) : Prop :=
  (forall c, In c (list_ascii_of_string s) -> Digit c) /\
  (lo <= String.length s <= hi)%nat.

Definition isFormatViolation (e : Yup.FieldError) : bool :=
  match Yup.classify (Yup.feType e) with
  | Yup.FormatViolation => true
  | _ => false
  end.

(** The fields on which the schema reports a format violation. *)
Definition formatViolations {V} (sch : Yup.Schema V) (v : V) : list string :=
  map Yup.feField (filter isFormatViolation (Yup.validate sch v)).


Section Vocabulary.
Context {E : Entity}.

(** The ids held by the store. *)
Definition ids (s : PageState E) : list Z := map rowId (rows s).

(** [m] is the largest id among [rows]. *)
Definition isMaxId (m : Z) (rows : list Row) : Prop :=
  In m (map rowId rows) /\ forall r, In r rows -> rowId r <= m.

(** The first uniqueness test of the page that finds a duplicate. *)
Definition firstDuplicate (p : Page E) (rows : list Row) (editingId : option Z)
    (data : Values) : option (UniqueCheck E) :=
  find (fun c => isDuplicate c rows editingId data) (uniqueChecks p).

(** The submitted buffer does not pass: the schema reports an error, or
    one of the page's uniqueness tests finds a duplicate. *)
Definition validationFails (p : Page E) (s : PageState E) : Prop :=
  Yup.validate (schema p) (RHF.values (form s)) <> [] \/
  firstDuplicate p (rows s) (editingId s) (RHF.values (form s)) <> None.

Definition validationPasses (p : Page E) (s : PageState E) : Prop :=
  Yup.validate (schema p) (RHF.values (form s)) = [] /\
  firstDuplicate p (rows s) (editingId s) (RHF.values (form s)) = None.

(** Two strings that [toLowerCase] makes equal. *)
Definition sameKey (a b : string) : Prop := JS.toLowerCase a = JS.toLowerCase b.

(** No two rows with different ids agree on the checked field. *)
Definition uniqueFor (c : UniqueCheck E) (rows : list Row) : Prop :=
  forall r1 r2, In r1 rows -> In r2 rows ->
    sameKey (ucRow c r1) (ucRow c r2) -> rowId r1 = rowId r2.

(** How the checked field of a row relates to the submitted data: a new
    row takes it from the data; an updated row keeps it (the natural key)
    or takes it from the data (any other field). *)
Definition coherent (c : UniqueCheck E) : Prop :=
  (forall i d, ucRow c (newRow i d) = ucData c d) /\
  (forall r, ucData c (rowValues r) = ucRow c r) /\
  ((forall r d, ucRow c (patchRow r d) = ucRow c r) \/
   (forall r d, ucRow c (patchRow r d) = ucData c d)).

(** The part of the state that a failed submit must leave alone. *)
Definition sameButErrors (s s' : PageState E) : Prop :=
  rows s' = rows s /\
  editingId s' = editingId s /\
  isFormOpen s' = isFormOpen s /\
  viewed s' = viewed s /\
  RHF.values (form s') = RHF.values (form s) /\
  RHF.defaultValues (form s') = RHF.defaultValues (form s).

End Vocabulary.

(** Every event of the sequence can be fired when its turn comes. *)
Fixpoint enabledAll `{E : Entity} (p : Page E) (evs : list (Event E))
    (s : PageState E) : Prop :=
  match evs with
  | [] => True
  | ev :: r => enabled s ev /\ enabledAll p r (fire p ev s)
  end.

(** Sample buffers used in the scenarios. *)
Definition managerValues : DV.t := DV.mk "MGR" "Manager".
Definition supervisorValues : DV.t := DV.mk "SUP" "Supervisor".
Definition duplicateDriverValues : DV.t := DV.mk "drv" "X".
Definition duplicateLocationValues : LV.t :=
  LV.mk "aalmys" "Mysore Plant" "KA" "IN" "KA" "Mysore" "570018".
Definition otherTenantValues : OV.t :=
  OV.mk "New Org" "NEW" "1234567890" "new@example.com" "9821719750"
    "Main Road" "Mysore" "570018" "aal" "Active" "Month 4".
Definition anyEmail : string -> bool := fun _ => true.
Definition renamedOrganizationValues : OV.t :=
  OV.mk "Automotive Axles Limited" "XYZ" "7797779699" "info@autoaxle.com"
    "9821719750" "Hootagalli Industrial Area, Off Hunsur Road," "Mysore"
    "570018" "AAL" "Inactive" "Month 4".
Definition driverRow : D.t := D.mk 1 "DRV" "Driver".
Definition securityRow : D.t := D.mk 2 "SEC" "Security".
Definition pantnagarRow : L.t :=
  L.mk 1 "AALMYS" "PANTNAGAR" "UK" "IN" "UK" "PANTNAGAR" "12345".
Definition axlesRow : O.t :=
  O.mk 1 "Automotive Axles Limited" "AAL" "7797779699" "info@autoaxle.com"
    "9821719750" "Hootagalli Industrial Area, Off Hunsur Road," "Mysore"
    EmptyString "AAL" "Inactive" "Month 4".

(* ================================================================== *)
(** * What a page renders from [editingId] *)

(** [!!editingId], and [editingId ? a : b]: [null] and [0] are falsy. *)
Definition truthy (e : option Z) : bool :=
  match e with
  | None => false
  | Some i => negb (i =? 0)
  end.

(** [editingId !== null] *)
Definition notNull (e : option Z) : bool :=
  match e with
  | None => false
  | Some _ => true
  end.

Inductive SubmitLabel := Save | Update.

(** [editingId === null ? "Save" : "Update"] (Designation, Subsidiary and
    Location pages). *)
Definition submitLabelByNull (e : option Z) : SubmitLabel :=
  if notNull e then Update else Save.

(** [editingId ? "Update" : "Save"] (both Organization pages). *)
Definition submitLabelByTruth (e : option Z) : SubmitLabel :=
  if truthy e then Update else Save.

(** [readOnly={!!editingId}] on the key input of the pages with an inline
    view panel and of the first Organization page. *)
Definition keyReadOnly (e : option Z) : bool := truthy e.

(** [disabled={editingId !== null}] on the key input of the pages built
    from the shared components. *)
Definition keyDisabled (e : option Z) : bool := notNull e.

(* ================================================================== *)
(** * [App.tsx]: one screen at a time *)

Module App.

(** [useState<"org" | "sub" | "loc" | "Des">("org")] *)
Inductive Tab := org | sub | loc | Des.

Definition tabEqb (a b : Tab) : bool :=
  match a, b with
  | org, org | sub, sub | loc, loc | Des, Des => true
  | _, _ => false
  end.

(** The four page components that [App] imports, and the Subsidiary seed,
    whose file is not among the sources. *)
Record Screens := mkScreens
  { OrganizationPage : Page OrganizationE;
    SubsidiaryPage : Page SubsidiaryE;
    LocationPage : Page LocationE;
    DesignationPage : Page DesignationE;
    initialSubsidiaries : list S.t }.

(** [{active === "org" && <OrganizationPage />}] and its three siblings:
    exactly one page is mounted, with its own state. *)
Inductive Mounted :=
| OrganizationMounted (s : PageState OrganizationE)
| SubsidiaryMounted (s : PageState SubsidiaryE)
| LocationMounted (s : PageState LocationE)
| DesignationMounted (s : PageState DesignationE).

Definition active (m : Mounted) : Tab :=
  match m with
  | OrganizationMounted _ => org
  | SubsidiaryMounted _ => sub
  | LocationMounted _ => loc
  | DesignationMounted _ => Des
  end.

(** Mounting the page of a tab: its state starts from the seed. *)
Definition show (sc : Screens) (t : Tab) : Mounted :=
  match t with
  | org => OrganizationMounted (mount (OrganizationPage sc) initialOrganizations)
  | sub => SubsidiaryMounted (mount (SubsidiaryPage sc) (initialSubsidiaries sc))
  | loc => LocationMounted (mount (LocationPage sc) initialLocations)
  | Des => DesignationMounted (mount (DesignationPage sc) initialDesignations)
  end.

Definition initial (sc : Screens) : Mounted := show sc org.

(** [setActive(t)]: setting the tab that is already active changes
    nothing; another tab unmounts the page and mounts the new one. *)
Definition setActive (sc : Screens) (t : Tab) (m : Mounted) : Mounted :=
  if tabEqb t (active m) then m else show sc t.

(** What the user can do in the application. *)
Inductive AppEvent :=
| Select (t : Tab)
| OnOrganization (ev : Event OrganizationE)
| OnSubsidiary (ev : Event SubsidiaryE)
| OnLocation (ev : Event LocationE)
| OnDesignation (ev : Event DesignationE).

(** An event of a page reaches it only while that page is mounted. *)
Definition step (sc : Screens) (ev : AppEvent) (m : Mounted) : Mounted :=
  match ev, m with
  | Select t, _ => setActive sc t m
  | OnOrganization e, OrganizationMounted s =>
      OrganizationMounted (fire (OrganizationPage sc) e s)
  | OnSubsidiary e, SubsidiaryMounted s =>
      SubsidiaryMounted (fire (SubsidiaryPage sc) e s)
  | OnLocation e, LocationMounted s =>
      LocationMounted (fire (LocationPage sc) e s)
  | OnDesignation e, DesignationMounted s =>
      DesignationMounted (fire (DesignationPage sc) e s)
  | _, _ => m
  end.

(** The tabs can always be clicked; a page event needs its page mounted
    and its control on the screen. *)
Definition canDo (ev : AppEvent) (m : Mounted) : Prop :=
  match ev, m with
  | Select _, _ => True
  | OnOrganization e, OrganizationMounted s => enabled s e
  | OnSubsidiary e, SubsidiaryMounted s => enabled s e
  | OnLocation e, LocationMounted s => enabled s e
  | OnDesignation e, DesignationMounted s => enabled s e
  | _, _ => False
  end.

Inductive appReachable (sc : Screens) : Mounted -> Prop :=
| reach_initial : appReachable sc (initial sc)
| reach_step m ev :
    appReachable sc m -> canDo ev m -> appReachable sc (step sc ev m).

(** The state of the mounted page is one that the page can reach on its
    own from its seed. *)
Definition pageReachable (sc : Screens) (m : Mounted) : Prop :=
  match m with
  | OrganizationMounted s => reachable (OrganizationPage sc) initialOrganizations s
  | SubsidiaryMounted s => reachable (SubsidiaryPage sc) (initialSubsidiaries sc) s
  | LocationMounted s => reachable (LocationPage sc) initialLocations s
  | DesignationMounted s => reachable (DesignationPage sc) initialDesignations s
  end.

Fixpoint steps (sc : Screens) (evs : list AppEvent) (m : Mounted) : Mounted :=
  match evs with
  | [] => m
  | ev :: r => steps sc r (step sc ev m)
  end.

End App.

(** More sample data for the scenarios. *)
Definition sampleSubsidiaries : list S.t :=
  [ S.mk 1 "Axles North" "AALN" "Northern unit" "AALMYS" "AAL" ].
Definition sourceScreens : App.Screens :=
  App.mkScreens (OrganizationPage_v2 anyEmail) SubsidiaryPage_v2
    LocationPage_v2 DesignationPage_v2 sampleSubsidiaries.
Definition guardValues : DV.t := DV.mk "SEC" "Guard".
Definition clerkValues : DV.t := DV.mk "CLK" "Clerk".
Definition cookValues : DV.t := DV.mk "COK" "Cook".
(* ================================================================== *)
(** * Properties *)

(** ** The handlers of each source, written out *)

Lemma LocationPage_v2_onSubmit (data : LV.t) (s : PageState LocationE) :
  onSubmit LocationPage_v2 data s =
  if existsb
       (fun row =>
          JS.strictEq (JS.toLowerCase (L.locationCode row))
                      (JS.toLowerCase (LV.locationCode data))
          && JS.idNotEq (L.id row) (editingId s))
       (rows s)
  then Throw (ReferenceError "setError") s
  else save s data s.
Proof.
  unfold onSubmit, closure; simpl; unfold callSetError, isDuplicate; simpl.
  destruct (existsb _ _); reflexivity.
Qed.

Lemma DesignationPage_v1_onSubmit (data : DV.t) (s : PageState DesignationE) :
  onSubmit DesignationPage_v1 data s = save s data s.
Proof. reflexivity. Qed.

Lemma DesignationPage_v2_onSubmit (data : DV.t) (s : PageState DesignationE) :
  onSubmit DesignationPage_v2 data s =
  if existsb
       (fun row =>
          JS.strictEq (JS.toLowerCase (D.designationCode row))
                      (JS.toLowerCase (DV.designationCode data))
          && JS.idNotEq (D.id row) (editingId s))
       (rows s)
  then setError "designationCode"
         "Designation Code already exists. It must be unique." s
  else save s data s.
Proof.
  unfold onSubmit, closure; simpl; unfold callSetError, isDuplicate; simpl.
  destruct (existsb _ _); reflexivity.
Qed.

Lemma SubsidiaryPage_v2_onSubmit (data : SV.t) (s : PageState SubsidiaryE) :
  onSubmit SubsidiaryPage_v2 data s =
  if existsb
       (fun row =>
          JS.strictEq (JS.toLowerCase (S.subsidiaryCode row))
                      (JS.toLowerCase (SV.subsidiaryCode data))
          && JS.idNotEq (S.id row) (editingId s))
       (rows s)
  then setError "subsidiaryCode"
         "Subsidiary Code already exists. It must be unique." s
  else save s data s.
Proof.
  unfold onSubmit, closure; simpl; unfold callSetError, isDuplicate; simpl.
  destruct (existsb _ _); reflexivity.
Qed.

Lemma OrganizationPage_v2_onSubmit rEmail (data : OV.t) (s : PageState OrganizationE) :
  onSubmit (OrganizationPage_v2 rEmail) data s =
  if isDuplicate keyCheck (rows s) (editingId s) data
  then setError "organizationCode"
         "Organization Code already exists. It must be unique." s
  else if isDuplicate tenantCheck (rows s) (editingId s) data
  then setError "tenantCode"
         "Tenant Code already exists. It must be unique." s
  else save s data s.
Proof.
  unfold onSubmit, closure; simpl; unfold callSetError; simpl.
  destruct (isDuplicate keyCheck _ _ _); [reflexivity|].
  destruct (isDuplicate tenantCheck _ _ _); reflexivity.
Qed.

Lemma save_create `{E : Entity} (s : PageState E) (data : Values) :
  editingId s = None ->
  save s data s =
  Normal (mkPageState (rows s ++ [newRow (nextId (rows s)) data]) None false
            (viewed s) (RHF.reset None (form s))).
Proof. intros H. unfold save. rewrite H. reflexivity. Qed.

Lemma save_update `{E : Entity} (s : PageState E) (data : Values) (i : Z) :
  editingId s = Some i ->
  save s data s =
  Normal (mkPageState (updateRows i data (rows s)) None false
            (viewed s) (RHF.reset None (form s))).
Proof. intros H. unfold save. rewrite H. reflexivity. Qed.

(* ================================================================== *)
(** * Validator: what the schemas accept *)

Section SchemaFacts.

Lemma allDigits_spec (s : string) :
  JS.allDigits s = true <-> forall c, In c (list_ascii_of_string s) -> Digit c.
Proof.
  induction s as [|a s IH]; simpl.
  - split; [intros _ c []|reflexivity].
  - rewrite andb_true_iff, IH. unfold JS.isDigit, Digit.
    rewrite andb_true_iff, !Nat.leb_le. split.
    + intros [Ha Hs] c [<-|Hc]; auto.
    + intros H; split; [apply H; now left|intros c Hc; apply H; now right].
Qed.

Lemma matchesDigits_spec (lo hi : nat) (s : string) :
  JS.matchesDigits lo hi s = true <-> DigitsBetween lo hi s.
Proof.
  unfold JS.matchesDigits, DigitsBetween.
  rewrite !andb_true_iff, allDigits_spec, !Nat.leb_le. tauto.
Qed.

Lemma matchesDigits_false (lo hi : nat) (s : string) :
  JS.matchesDigits lo hi s = false <-> ~ DigitsBetween lo hi s.
Proof.
  rewrite <- matchesDigits_spec. destruct (JS.matchesDigits lo hi s); split; congruence.
Qed.

Lemma In_validate {V} (sch : Yup.Schema V) (v : V) (e : Yup.FieldError) :
  In e (Yup.validate sch v) <->
  exists f, In f sch /\ Yup.checkField f v = Some e.
Proof.
  induction sch as [|f r IH]; simpl.
  - split; [intros []|intros (f & [] & _)].
  - destruct (Yup.checkField f v) as [e'|] eqn:Hf; simpl; rewrite IH; split.
    + intros [<-|(g & Hg & He)]; [exists f; auto|exists g; auto].
    + intros (g & [<-|Hg] & He); [left; congruence|right; exists g; auto].
    + intros (g & Hg & He); exists g; auto.
    + intros (g & [<-|Hg] & He); [congruence|exists g; auto].
Qed.

Lemma In_formatViolations {V} (sch : Yup.Schema V) (v : V) (name : string) :
  In name (formatViolations sch v) <->
  exists f e, In f sch /\ Yup.checkField f v = Some e /\
              isFormatViolation e = true /\ Yup.feField e = name.
Proof.
  unfold formatViolations. rewrite in_map_iff. split.
  - intros (e & Hn & He). apply filter_In in He as [He Hk].
    apply In_validate in He as (f & Hf & Hc). exists f, e; auto.
  - intros (f & e & Hf & Hc & Hk & Hn). exists e. split; [assumption|].
    apply filter_In. split; [|assumption]. apply In_validate. exists f; auto.
Qed.

(** A field whose only test is [required] never reports a format violation. *)
Lemma required_only_no_format {V} (name msg : string) (get : V -> string) (v : V) e :
  Yup.checkField (Yup.mkField name get [Yup.required msg]) v = Some e ->
  isFormatViolation e = false.
Proof.
  unfold Yup.checkField; simpl.
  destruct (negb (get v =? EmptyString)%string); intros H; inversion H; reflexivity.
Qed.

(** [required] followed by a digit-count pattern. *)
Lemma required_digits_format {V} (name m1 m2 : string) lo hi (get : V -> string) (v : V) e :
  Yup.checkField
    (Yup.mkField name get [Yup.required m1; Yup.matchesDigits lo hi m2]) v = Some e ->
  Yup.feField e = name /\
  (isFormatViolation e = true <-> get v <> EmptyString /\ ~ DigitsBetween lo hi (get v)).
Proof.
  unfold Yup.checkField; simpl.
  destruct (get v =? EmptyString)%string eqn:He; simpl.
  - intros H; inversion H; subst; simpl. split; [reflexivity|].
    apply String.eqb_eq in He. split; [discriminate|intros [Hn _]; contradiction].
  - apply String.eqb_neq in He.
    destruct (JS.matchesDigits lo hi (get v)) eqn:Hm; intros H; inversion H; subst; simpl.
    split; [reflexivity|]. apply matchesDigits_false in Hm. tauto.
Qed.

Lemma pincode_1234_not_accepted : ~ DigitsBetween 5 6 "1234".
Proof. intros [_ H]. simpl in H. lia. Qed.

Lemma pincode_123456_accepted : DigitsBetween 5 6 "123456".
Proof. apply matchesDigits_spec. reflexivity. Qed.

End SchemaFacts.

Local Ltac schema_fields H :=
  simpl in H;
  repeat (destruct H as [H|H]; [subst|]); try contradiction.

Lemma organization_formatViolations (rEmail : string -> bool) (v : OV.t) (name : string) :
  In name (formatViolations (organizationSchema rEmail) v) <->
     (name = "emailId" /\ OV.emailId v <> EmptyString /\ rEmail (OV.emailId v) = false)
  \/ (name = "contactNumber" /\ OV.contactNumber v <> EmptyString /\
      ~ DigitsBetween 8 15 (OV.contactNumber v))
  \/ (name = "pinCode" /\ OV.pinCode v <> EmptyString /\
      ~ DigitsBetween 5 6 (OV.pinCode v)).
Proof.
  rewrite In_formatViolations. split.
  - intros (f & e & Hf & Hc & Hk & Hn).
    schema_fields Hf;
      try (apply required_only_no_format in Hc; congruence).
    + (* emailId *)
      left. revert Hc Hk. unfold Yup.checkField; simpl.
      destruct (OV.emailId v =? EmptyString)%string eqn:He; simpl.
      * intros Hc; inversion Hc; subst; discriminate.
      * apply String.eqb_neq in He.
        destruct (rEmail (OV.emailId v)) eqn:Hr; simpl.
        -- discriminate.
        -- intros Hc; inversion Hc; subst; auto.
    + right; left. apply required_digits_format in Hc as [Hfld Hiff].
      apply Hiff in Hk. subst; tauto.
    + right; right. apply required_digits_format in Hc as [Hfld Hiff].
      apply Hiff in Hk. subst; tauto.
  - intros [(-> & He & Hr)|[(-> & He & Hd)|(-> & He & Hd)]].
    + exists (Yup.mkField "emailId" OV.emailId
                [Yup.email rEmail "Invalid email"; Yup.required "Email ID is required"]).
      exists (Yup.mkFieldError "emailId" Yup.TEmail "Invalid email").
      split; [simpl; tauto|]. split; [|auto].
      unfold Yup.checkField; simpl.
      rewrite (proj2 (String.eqb_neq _ _) He), Hr. reflexivity.
    + exists (Yup.mkField "contactNumber" OV.contactNumber
                [Yup.required "Contact Number is required";
                 Yup.matchesDigits 8 15 "Contact must be 8–15 digits"]).
      exists (Yup.mkFieldError "contactNumber" Yup.TMatches "Contact must be 8–15 digits").
      split; [simpl; tauto|]. split; [|auto].
      unfold Yup.checkField; simpl.
      rewrite (proj2 (String.eqb_neq _ _) He); simpl.
      rewrite (proj2 (matchesDigits_false _ _ _) Hd). reflexivity.
    + exists (Yup.mkField "pinCode" OV.pinCode
                [Yup.required "Pin Code is required";
                 Yup.matchesDigits 5 6 "Pin Code must be 5–6 digits"]).
      exists (Yup.mkFieldError "pinCode" Yup.TMatches "Pin Code must be 5–6 digits").
      split; [simpl; tauto|]. split; [|auto].
      unfold Yup.checkField; simpl.
      rewrite (proj2 (String.eqb_neq _ _) He); simpl.
      rewrite (proj2 (matchesDigits_false _ _ _) Hd). reflexivity.
Qed.

Lemma location_formatViolations (msg : string) (v : LV.t) (name : string) :
  In name (formatViolations (locationSchema msg) v) <->
  name = "pincode" /\ LV.pincode v <> EmptyString /\ ~ DigitsBetween 5 6 (LV.pincode v).
Proof.
  rewrite In_formatViolations. split.
  - intros (f & e & Hf & Hc & Hk & Hn).
    schema_fields Hf;
      try (apply required_only_no_format in Hc; congruence).
    apply required_digits_format in Hc as [Hfld Hiff].
    apply Hiff in Hk. subst; tauto.
  - intros (-> & He & Hd).
    exists (Yup.mkField "pincode" LV.pincode
              [Yup.required "Pincode is required"; Yup.matchesDigits 5 6 msg]).
    exists (Yup.mkFieldError "pincode" Yup.TMatches msg).
    split; [simpl; tauto|]. split; [|auto].
    unfold Yup.checkField; simpl.
    rewrite (proj2 (String.eqb_neq _ _) He); simpl.
    rewrite (proj2 (matchesDigits_false _ _ _) Hd). reflexivity.
Qed.

Lemma subsidiary_formatViolations (v : SV.t) (name : string) :
  In name (formatViolations subsidiarySchema v) <->
  name = "subsidiaryCode" /\ (20 < String.length (SV.subsidiaryCode v))%nat.
Proof.
  rewrite In_formatViolations. split.
  - intros (f & e & Hf & Hc & Hk & Hn).
    schema_fields Hf;
      try (apply required_only_no_format in Hc; congruence).
    revert Hc Hk. unfold Yup.checkField; simpl.
    destruct (SV.subsidiaryCode v =? EmptyString)%string; simpl.
    + intros Hc; inversion Hc; subst; discriminate.
    + destruct (String.length (SV.subsidiaryCode v) <=? 20)%nat eqn:Hl;
        intros Hc; inversion Hc; subst.
      apply Nat.leb_gt in Hl. auto.
  - intros (-> & Hl).
    exists (Yup.mkField "subsidiaryCode" SV.subsidiaryCode
              [Yup.required "Subsidiary Code is required";
               Yup.max 20 "Max 20 characters"]).
    exists (Yup.mkFieldError "subsidiaryCode" Yup.TMax "Max 20 characters").
    split; [simpl; tauto|]. split; [|auto].
    unfold Yup.checkField; simpl.
    destruct (SV.subsidiaryCode v) as [|c r] eqn:Hs; [simpl in Hl; lia|].
    simpl String.eqb. simpl negb. cbv iota.
    rewrite (proj2 (Nat.leb_gt _ _)) by exact Hl. reflexivity.
Qed.

Lemma designation_formatViolations (v : DV.t) :
  formatViolations designationSchema v = [].
Proof.
  destruct (formatViolations designationSchema v) as [|name r] eqn:H; [reflexivity|].
  assert (Hin : In name (formatViolations designationSchema v)) by (rewrite H; now left).
  apply In_formatViolations in Hin as (f & e & Hf & Hc & Hk & _).
  schema_fields Hf; apply required_only_no_format in Hc; congruence.
Qed.


(** C8. The format rules of the validator are exactly: the shape of the
    Organization [emailId]; 8 to 15 digits for [contactNumber]; 5 to 6
    digits for the Organization [pinCode] and the Location [pincode]; at
    most 20 characters for [subsidiaryCode]; the Designation schema has no
    format rule. A Location pincode ["1234"] is a format violation and
    ["123456"] is accepted. An empty value is reported as a missing
    required field, not as a format violation. *)
Theorem validator_format_rules :
  (forall rEmail v name,
     In name (formatViolations (organizationSchema rEmail) v) <->
        (name = "emailId" /\ OV.emailId v <> EmptyString /\ rEmail (OV.emailId v) = false)
     \/ (name = "contactNumber" /\ OV.contactNumber v <> EmptyString /\
         ~ DigitsBetween 8 15 (OV.contactNumber v))
     \/ (name = "pinCode" /\ OV.pinCode v <> EmptyString /\
         ~ DigitsBetween 5 6 (OV.pinCode v))) /\
  (forall msg v name,
     In name (formatViolations (locationSchema msg) v) <->
     name = "pincode" /\ LV.pincode v <> EmptyString /\ ~ DigitsBetween 5 6 (LV.pincode v)) /\
  (forall v name,
     In name (formatViolations subsidiarySchema v) <->
     name = "subsidiaryCode" /\ (20 < String.length (SV.subsidiaryCode v))%nat) /\
  (forall v, formatViolations designationSchema v = []) /\
  (forall msg a b c d e f,
     Yup.validate (locationSchema msg) (LV.mk a b c d e f "1234")
       = (Yup.validate (locationSchema msg) (LV.mk a b c d e f "123456")
          ++ [Yup.mkFieldError "pincode" Yup.TMatches msg])%list /\
     Yup.classify Yup.TMatches = Yup.FormatViolation) /\
  (forall msg,
     Yup.validate (locationSchema msg)
       (LV.mk "AALMYS" "PANTNAGAR" "UK" "IN" "UK" "PANTNAGAR" "123456") = []).
Proof.
  split; [exact organization_formatViolations|].
  split; [exact location_formatViolations|].
  split; [exact subsidiary_formatViolations|].
  split; [exact designation_formatViolations|].
  split; [|reflexivity].
  intros msg a b c d e f. split; [|reflexivity].
  unfold locationSchema, Yup.validate, Yup.checkField; simpl.
  destruct (negb (a =? EmptyString)%string), (negb (b =? EmptyString)%string),
    (negb (c =? EmptyString)%string), (negb (d =? EmptyString)%string),
    (negb (e =? EmptyString)%string), (negb (f =? EmptyString)%string); reflexivity.
Qed.

(* ================================================================== *)
(** * Facts about the handlers *)

Section HandlerFacts.
Context {E : Entity}.
Variable p : Page E.

Lemma checked_firstDuplicate (render : PageState E) (data : Values)
    (checks : list (UniqueCheck E)) (k : Handler (PageState E)) :
  checked p render data checks k =
  match find (fun c => isDuplicate c (rows render) (editingId render) data) checks with
  | Some c => callSetError p (ucField c) (ucMessage c)
  | None => k
  end.
Proof.
  induction checks as [|c cs IH]; simpl; [reflexivity|].
  destruct (isDuplicate c (rows render) (editingId render) data); auto.
Qed.

Lemma onSubmit_eq (data : Values) (s : PageState E) :
  onSubmit p data s =
  match firstDuplicate p (rows s) (editingId s) data with
  | Some c => callSetError p (ucField c) (ucMessage c) s
  | None => save s data s
  end.
Proof.
  unfold onSubmit, closure, firstDuplicate. rewrite checked_firstDuplicate.
  destruct (find _ _); reflexivity.
Qed.

Lemma callSetError_same (field msg : string) (s : PageState E) :
  sameButErrors s (stateOf (callSetError p field msg s)).
Proof.
  unfold callSetError, sameButErrors.
  destruct (setErrorBound p); simpl; repeat split; reflexivity.
Qed.

Lemma find_none_iff {A} (f : A -> bool) (l : list A) :
  find f l = None <-> forall x, In x l -> f x = false.
Proof.
  split; [apply find_none|].
  intros H. destruct (find f l) as [x|] eqn:Hx; [|reflexivity].
  apply find_some in Hx as [Hin Hf]. rewrite (H _ Hin) in Hf. discriminate.
Qed.

(** A submit that does not pass changes nothing but the reported errors. *)
Lemma handleSubmit_fails (s : PageState E) :
  validationFails p s -> sameButErrors s (stateOf (handleSubmit p s)).
Proof.
  intros Hfail. unfold handleSubmit, closure.
  destruct (Yup.validate (schema p) (RHF.values (form s))) as [|e errs] eqn:Hv.
  - destruct Hfail as [Hne|Hdup]; [congruence|].
    unfold seq, onForm. rewrite onSubmit_eq. simpl.
    destruct (firstDuplicate p (rows s) (editingId s) (RHF.values (form s)))
      as [c|] eqn:Hd; [|congruence].
    match goal with |- sameButErrors _ (stateOf (callSetError _ _ _ ?s1)) =>
      pose proof (callSetError_same (ucField c) (ucMessage c) s1) as H end.
    unfold sameButErrors in *; simpl in *. exact H.
  - unfold onForm, sameButErrors; simpl. repeat split; reflexivity.
Qed.

(** A submit that passes runs the tail of [onSubmit]. *)
Lemma handleSubmit_passes (s : PageState E) :
  validationPasses p s ->
  handleSubmit p s =
  Normal (mkPageState
            (match editingId s with
             | None => rows s ++ [newRow (nextId (rows s)) (RHF.values (form s))]
             | Some i => updateRows i (RHF.values (form s)) (rows s)
             end)
            None false (viewed s)
            (RHF.mkForm (RHF.defaultValues (form s)) (RHF.defaultValues (form s)) [])).
Proof.
  intros [Hv Hd]. unfold handleSubmit, closure. rewrite Hv.
  unfold seq, onForm. rewrite onSubmit_eq. simpl. rewrite Hd.
  unfold save; simpl. destruct (editingId s); reflexivity.
Qed.

Lemma validation_decided (s : PageState E) :
  validationFails p s \/ validationPasses p s.
Proof.
  unfold validationFails, validationPasses.
  destruct (Yup.validate (schema p) (RHF.values (form s))); [|left; left; discriminate].
  destruct (firstDuplicate p (rows s) (editingId s) (RHF.values (form s)));
    [left; right; discriminate|right; auto].
Qed.

Lemma sameRow_refl (a : option Row) : sameRow a a = true.
Proof.
  destruct a as [x|]; simpl; [|reflexivity].
  destruct (rowEqDec x x); congruence.
Qed.

(** The prefill effect touches the form only. *)
Lemma afterRender_frame (before after : PageState E) :
  rows (afterRender p before after) = rows after /\
  editingId (afterRender p before after) = editingId after /\
  isFormOpen (afterRender p before after) = isFormOpen after /\
  viewed (afterRender p before after) = viewed after.
Proof.
  unfold afterRender.
  destruct (sameRow (editingRow before) (editingRow after)); [auto|].
  unfold prefill. destruct (editingRow after); simpl; auto.
Qed.

Lemma afterRender_same_editingRow (before after : PageState E) :
  rows after = rows before -> editingId after = editingId before ->
  afterRender p before after = after.
Proof.
  intros Hr He. unfold afterRender, editingRow. rewrite Hr, He.
  now rewrite sameRow_refl.
Qed.

Lemma rows_fire (ev : Event E) (s : PageState E) :
  rows (fire p ev s) = rows (stateOf (dispatch p ev s)).
Proof. unfold fire. apply afterRender_frame. Qed.

(** How an event changes the store. *)
Lemma rows_dispatch (ev : Event E) (s : PageState E) :
  let rows' := rows (stateOf (dispatch p ev s)) in
  rows' = rows s \/
  (exists id, ev = ClickDelete id true /\ rows' = deleteRow id (rows s)) \/
  (ev = SubmitForm /\ validationPasses p s /\
   match editingId s with
   | None => rows' = rows s ++ [newRow (nextId (rows s)) (RHF.values (form s))]
   | Some i => rows' = updateRows i (RHF.values (form s)) (rows s)
   end).
Proof.
  destruct ev as [| row | row | | id confirmed | | v |]; simpl; auto.
  - (* ClickAddNew *)
    left. unfold handleAddNew, seq, closeViewIf; simpl.
    destruct (handlersCloseView p); reflexivity.
  - left. unfold handleEdit, seq, closeViewIf; simpl.
    destruct (handlersCloseView p); reflexivity.
  - destruct confirmed; [right; left; exists id; split; [reflexivity|]|left; reflexivity].
    unfold handleDelete, closure, seq, closeViewIf; simpl.
    destruct (JS.idEq id (editingId s)); simpl;
      destruct (handlersCloseView p); simpl; try reflexivity;
      destruct (isViewing _ id); reflexivity.
  - destruct (validation_decided s) as [Hf|Hp].
    + left. apply handleSubmit_fails in Hf. apply Hf.
    + right; right. split; [reflexivity|]. split; [assumption|].
      rewrite (handleSubmit_passes Hp); simpl. destruct (editingId s); reflexivity.
Qed.

End HandlerFacts.

(* ================================================================== *)
(** * Create, update and failed submits *)

Lemma Math_max_spec (x : Z) (xs : list Z) :
  In (JS.Math_max x xs) (x :: xs) /\
  forall y, In y (x :: xs) -> y <= JS.Math_max x xs.
Proof.
  unfold JS.Math_max. revert x.
  induction xs as [|a xs IH]; intros x; simpl.
  - split; [now left|intros y [<-|[]]; lia].
  - destruct (IH (Z.max x a)) as [Hin Hle]. split.
    + destruct Hin as [Hm|Hm]; [|now right; right].
      rewrite <- Hm. destruct (Z.max_spec x a) as [[_ ->]|[_ ->]]; auto.
    + intros y [<-|[<-|Hy]].
      * specialize (Hle (Z.max x a) (or_introl eq_refl)). lia.
      * specialize (Hle (Z.max x a) (or_introl eq_refl)). lia.
      * apply Hle. now right.
Qed.

Lemma nextId_spec `{E : Entity} (rs : list Row) :
  (rs = [] /\ nextId rs = 1) \/
  (exists m, isMaxId m rs /\ nextId rs = m + 1).
Proof.
  unfold nextId, isMaxId. destruct rs as [|r rs]; [left; auto|right].
  simpl map. exists (JS.Math_max (rowId r) (map rowId rs)).
  destruct (Math_max_spec (rowId r) (map rowId rs)) as [Hin Hle].
  split; [split; [exact Hin|]|reflexivity].
  intros r' Hr'. apply Hle. change (In (rowId r') (map rowId (r :: rs))).
  now apply in_map.
Qed.

Lemma nextId_above `{E : Entity} (rs : list Row) (r : Row) :
  In r rs -> rowId r < nextId rs.
Proof.
  intros Hr. destruct (nextId_spec rs) as [[-> _]|(m & [_ Hle] & ->)]; [destruct Hr|].
  specialize (Hle r Hr). lia.
Qed.

Lemma nth_error_updateRows `{E : Entity} (i : Z) (data : Values) (rs : list Row)
    (n : nat) (R : Row) :
  nth_error rs n = Some R ->
  nth_error (updateRows i data rs) n =
  Some (if rowId R =? i then patchRow R data else R).
Proof.
  intros H. unfold updateRows.
  rewrite nth_error_map, H. reflexivity.
Qed.

(** C3. On every page, a submit in creating state whose buffer passes
    validation appends exactly one record to the store: the previous
    records stay as they were, in order; the new record has id 1 on an
    empty store and the largest stored id plus one otherwise; its other
    fields are those of the buffer. *)
Theorem create_appends_one_record `{E : Entity} (p : Page E) (s : PageState E) :
  editingId s = None ->
  validationPasses p s ->
  let data := RHF.values (form s) in
  let new := newRow (nextId (rows s)) data in
  rows (fire p SubmitForm s) = rows s ++ [new] /\
  rowValues new = data /\
  rowId new = nextId (rows s) /\
  ((rows s = [] /\ rowId new = 1) \/
   (exists m, isMaxId m (rows s) /\ rowId new = m + 1)).
Proof.
  intros He Hp data new. subst data new.
  rewrite rows_fire. simpl. rewrite (handleSubmit_passes Hp). simpl.
  rewrite He, rowValues_newRow, rowId_newRow.
  repeat split. apply nextId_spec.
Qed.

(** C2. The update of the store replaces every record whose id is the
    edited one by a record with the same id and the same natural key,
    whatever key the buffer carries, and with the buffer's values in all
    other fields; records with another id are untouched. On every page a
    submit made while editing a record leaves that record's key and id as
    stored, whether or not the submit passes. *)
Theorem update_keeps_natural_key :
  (forall (E : Entity) (i : Z) (data : Values) (rs : list Row) (n : nat) (R : Row),
     nth_error rs n = Some R ->
     (rowId R = i ->
      nth_error (updateRows i data rs) n = Some (patchRow R data) /\
      rowKey (patchRow R data) = rowKey R /\
      rowId (patchRow R data) = rowId R) /\
     (rowId R <> i -> nth_error (updateRows i data rs) n = Some R)) /\
  (forall (E : Entity) (p : Page E) (s : PageState E) (n : nat) (R : Row),
     nth_error (rows s) n = Some R ->
     editingId s = Some (rowId R) ->
     exists R',
       nth_error (rows (fire p SubmitForm s)) n = Some R' /\
       rowKey R' = rowKey R /\ rowId R' = rowId R /\
       (validationPasses p s -> R' = patchRow R (RHF.values (form s))) /\
       (validationFails p s -> R' = R)) /\
  (forall (row : O.t) (data : OV.t),
     let r := @patchRow OrganizationE row data in
     O.organizationCode r = O.organizationCode row /\
     O.organizationName r = OV.organizationName data /\
     O.registrationNumber r = OV.registrationNumber data /\
     O.emailId r = OV.emailId data /\
     O.contactNumber r = OV.contactNumber data /\
     O.addressLine1 r = OV.addressLine1 data /\
     O.city r = OV.city data /\
     O.pinCode r = OV.pinCode data /\
     O.tenantCode r = OV.tenantCode data /\
     O.status r = OV.status data /\
     O.financialYearStart r = OV.financialYearStart data) /\
  (forall (row : S.t) (data : SV.t),
     let r := @patchRow SubsidiaryE row data in
     S.subsidiaryCode r = S.subsidiaryCode row /\
     S.subsidiaryName r = SV.subsidiaryName data /\
     S.subsidiaryDescription r = SV.subsidiaryDescription data /\
     S.locationCode r = SV.locationCode data /\
     S.organizationCode r = SV.organizationCode data) /\
  (forall (row : L.t) (data : LV.t),
     let r := @patchRow LocationE row data in
     L.locationCode r = L.locationCode row /\
     L.locationName r = LV.locationName data /\
     L.regionCode r = LV.regionCode data /\
     L.countryCode r = LV.countryCode data /\
     L.stateCode r = LV.stateCode data /\
     L.city r = LV.city data /\
     L.pincode r = LV.pincode data) /\
  (forall (row : D.t) (data : DV.t),
     let r := @patchRow DesignationE row data in
     D.designationCode r = D.designationCode row /\
     D.designationName r = DV.designationName data).
Proof.
  split; [|split].
  - intros E i data rs n R Hn. split.
    + intros Hi. rewrite (nth_error_updateRows i data _ _ Hn).
      rewrite (proj2 (Z.eqb_eq _ _) Hi).
      auto using rowKey_patchRow, rowId_patchRow.
    + intros Hi. rewrite (nth_error_updateRows i data _ _ Hn).
      now rewrite (proj2 (Z.eqb_neq _ _) Hi).
  - intros E p s n R Hn He. rewrite rows_fire. simpl.
    destruct (validation_decided p s) as [Hf|Hp].
    + exists R. pose proof (handleSubmit_fails Hf) as (Hr & _).
      rewrite Hr. repeat split; auto.
      intros [Hv Hd]. destruct Hf; congruence.
    + exists (patchRow R (RHF.values (form s))).
      rewrite (handleSubmit_passes Hp). simpl. rewrite He.
      rewrite (nth_error_updateRows _ _ _ _ Hn), Z.eqb_refl.
      repeat split; auto using rowKey_patchRow, rowId_patchRow.
      intros Hf. destruct Hp as [Hv Hd]. destruct Hf; congruence.
  - repeat split.
Qed.

(** C5. On every page, a submit whose validation fails (the schema reports
    a missing or malformed field, or a uniqueness test of the page finds a
    duplicate) leaves the store, the creating/editing state, the open form,
    the view and the buffer exactly as they were, both when the handler
    returns and after the following render. *)
Theorem failed_submit_changes_nothing `{E : Entity} (p : Page E) (s : PageState E) :
  validationFails p s ->
  sameButErrors s (stateOf (handleSubmit p s)) /\
  sameButErrors s (fire p SubmitForm s).
Proof.
  intros Hf. pose proof (handleSubmit_fails Hf) as H. split; [exact H|].
  unfold fire. simpl dispatch.
  rewrite afterRender_same_editingRow; [exact H|apply H|apply H].
Qed.

(* ================================================================== *)
(** * Ids *)

Section IdFacts.
Context {E : Entity}.
Variable p : Page E.

Lemma map_rowId_updateRows (i : Z) (data : Values) (rs : list Row) :
  map rowId (updateRows i data rs) = map rowId rs.
Proof.
  unfold updateRows. rewrite map_map. apply map_ext.
  intros r. destruct (rowId r =? i); [apply rowId_patchRow|reflexivity].
Qed.

Lemma In_deleteRow (id : Z) (rs : list Row) (r : Row) :
  In r (deleteRow id rs) <-> In r rs /\ rowId r <> id.
Proof.
  unfold deleteRow. rewrite filter_In, negb_true_iff, Z.eqb_neq. tauto.
Qed.

Lemma NoDup_map_filter {A B} (f : A -> B) (g : A -> bool) (l : list A) :
  NoDup (map f l) -> NoDup (map f (filter g l)).
Proof.
  induction l as [|a l IH]; simpl; [auto|].
  intros H. inversion H as [|? ? Hn Hd]; subst.
  destruct (g a); simpl; [constructor|]; auto.
  intros Hin. apply Hn. apply in_map_iff in Hin as (x & Hx & Hf).
  apply filter_In in Hf as [Hf _]. apply in_map_iff. eauto.
Qed.

Lemma rows_mount (seed : list Row) : rows (mount p seed) = seed.
Proof.
  unfold mount, prefill, editingRow; simpl.
  destruct (effectResetsToEmpty p); reflexivity.
Qed.

(** What an event can do to the list of ids. *)
Lemma ids_fire (ev : Event E) (s : PageState E) :
  ids (fire p ev s) = ids s \/
  (exists id, ids (fire p ev s) = filter (fun i => negb (i =? id)) (ids s)) \/
  ids (fire p ev s) = ids s ++ [nextId (rows s)].
Proof.
  unfold ids. rewrite rows_fire.
  destruct (rows_dispatch p ev s) as [H|[(id & _ & H)|(_ & _ & H)]].
  - left. now rewrite H.
  - right; left. exists id. rewrite H. unfold deleteRow.
    clear H. induction (rows s) as [|r rs IH]; simpl; [reflexivity|].
    destruct (rowId r =? id); simpl; now rewrite IH.
  - destruct (editingId s).
    + left. rewrite H. apply map_rowId_updateRows.
    + right; right. rewrite H, map_app. simpl. now rewrite rowId_newRow.
Qed.

Lemma NoDup_ids_fire (ev : Event E) (s : PageState E) :
  NoDup (ids s) -> NoDup (ids (fire p ev s)).
Proof.
  intros Hnd. destruct (ids_fire ev s) as [H|[(id & H)|H]]; rewrite H; [assumption| |].
  - rewrite <- (map_id (filter _ _)). apply NoDup_map_filter. now rewrite map_id.
  - apply NoDup_app; repeat split; [assumption|repeat constructor; intros []|].
    intros i Hi [<-|[]]. unfold ids in Hi.
    apply in_map_iff in Hi as (r & Hr & Hin).
    pose proof (nextId_above _ _ Hin). lia.
Qed.

Lemma reachable_NoDup_ids (seed : list Row) (s : PageState E) :
  NoDup (map rowId seed) -> reachable p seed s -> NoDup (ids s).
Proof.
  intros Hseed Hr. induction Hr as [|s ev Hr IH Hen].
  - unfold ids. now rewrite rows_mount.
  - now apply NoDup_ids_fire.
Qed.

Lemma reachable_run (seed : list Row) (evs : list (Event E)) (s : PageState E) :
  reachable p seed s -> enabledAll p evs s -> reachable p seed (run p evs s).
Proof.
  revert s. induction evs as [|ev evs IH]; intros s Hr Hen; simpl; [assumption|].
  destruct Hen as [H1 H2]. apply IH; [|assumption]. now apply reach_fire.
Qed.

End IdFacts.

(** C4 (as amended). On every page, from any seed whose ids are pairwise
    distinct, the ids of every reachable store are pairwise distinct, and
    an id that enters the store with an event is larger than every id the
    store held before the event. A create assigns 1 on an empty store and
    the largest stored id plus one otherwise, whatever ids were held by
    records deleted before: an id that is not in the store, deleted or
    never used, enters with the next create exactly when it is that
    value. *)
Theorem ids_distinct_and_above_stored `{E : Entity} (p : Page E)
    (seed : list Row) (s : PageState E) :
  NoDup (map rowId seed) ->
  reachable p seed s ->
  NoDup (ids s) /\
  (forall ev i,
     In i (ids (fire p ev s)) -> ~ In i (ids s) ->
     i = nextId (rows s) /\ forall j, In j (ids s) -> j < i) /\
  (editingId s = None -> validationPasses p s ->
   ids (fire p SubmitForm s) = ids s ++ [nextId (rows s)] /\
   ((rows s = [] /\ nextId (rows s) = 1) \/
    (exists m, isMaxId m (rows s) /\ nextId (rows s) = m + 1)) /\
   (forall i, ~ In i (ids s) ->
      (In i (ids (fire p SubmitForm s)) <-> i = nextId (rows s)))).
Proof.
  intros Hseed Hr. split; [eapply reachable_NoDup_ids; eauto|]. split.
  - intros ev i Hin Hnot.
    destruct (ids_fire p ev s) as [H|[(id & H)|H]]; rewrite H in Hin.
    + contradiction.
    + apply filter_In in Hin as [Hin _]. contradiction.
    + apply in_app_or in Hin as [Hin|[<-|[]]]; [contradiction|].
      split; [reflexivity|]. intros j Hj. unfold ids in Hj.
      apply in_map_iff in Hj as (r & <- & Hr'). now apply nextId_above.
  - intros He Hp.
    assert (Hids : ids (fire p SubmitForm s) = ids s ++ [nextId (rows s)]).
    { unfold ids. rewrite rows_fire. unfold dispatch.
      rewrite (handleSubmit_passes Hp). simpl. rewrite He, map_app. simpl.
      now rewrite rowId_newRow. }
    split; [exact Hids|]. split; [apply nextId_spec|].
    intros i Hnot. rewrite Hids. split.
    + intros Hin. apply in_app_or in Hin as [Hin|[<-|[]]];
        [contradiction|reflexivity].
    + intros ->. apply in_or_app. right. now left.
Qed.

(** C4, the claim as stated fails: on the Designation page the id 3 is
    assigned, its record deleted, and the next create assigns 3 again. *)
Lemma deleted_id_is_assigned_again :
  let p := DesignationPage_v1 in
  let s0 := mount p initialDesignations in
  let s1 := run p [ClickAddNew; @Typing DesignationE managerValues; SubmitForm] s0 in
  let s2 := fire p (ClickDelete 3 true) s1 in
  let s3 := run p [ClickAddNew; @Typing DesignationE supervisorValues; SubmitForm] s2 in
  reachable p initialDesignations s3 /\
  rows s1 = initialDesignations ++ [D.mk 3 "MGR" "Manager"] /\
  rows s2 = initialDesignations /\
  rows s3 = initialDesignations ++ [D.mk 3 "SUP" "Supervisor"].
Proof.
  cbv zeta. split; [|repeat split].
  change (reachable DesignationPage_v1 initialDesignations
            (run DesignationPage_v1
               [ClickAddNew; @Typing DesignationE managerValues; SubmitForm;
                ClickDelete 3 true;
                ClickAddNew; @Typing DesignationE supervisorValues; SubmitForm]
               (mount DesignationPage_v1 initialDesignations))).
  apply reachable_run; [constructor|].
  simpl. repeat split; auto.
Qed.

(** The id that comes back is the largest stored id plus one, not the id
    that was deleted last: with the ids 1, 2 and 5 in the store, deleting
    5 makes the next create assign 3. *)
Lemma next_id_follows_largest_stored :
  let p := DesignationPage_v1 in
  let s1 := run p [ClickAddNew; @Typing DesignationE managerValues; SubmitForm;
                   ClickAddNew; @Typing DesignationE supervisorValues; SubmitForm;
                   ClickAddNew; @Typing DesignationE clerkValues; SubmitForm;
                   ClickDelete 3 true; ClickDelete 4 true]
              (mount p initialDesignations) in
  let s2 := fire p (ClickDelete 5 true) s1 in
  let s3 := run p [ClickAddNew; @Typing DesignationE cookValues; SubmitForm] s2 in
  reachable p initialDesignations s3 /\
  ids s1 = [1; 2; 5] /\ ids s2 = [1; 2] /\ ids s3 = [1; 2; 3].
Proof.
  cbv zeta. split; [|repeat split].
  change (reachable DesignationPage_v1 initialDesignations
            (run DesignationPage_v1
               [ClickAddNew; @Typing DesignationE managerValues; SubmitForm;
                ClickAddNew; @Typing DesignationE supervisorValues; SubmitForm;
                ClickAddNew; @Typing DesignationE clerkValues; SubmitForm;
                ClickDelete 3 true; ClickDelete 4 true;
                ClickDelete 5 true;
                ClickAddNew; @Typing DesignationE cookValues; SubmitForm]
               (mount DesignationPage_v1 initialDesignations))).
  apply reachable_run; [constructor|].
  simpl. repeat split; auto 10.
Qed.

(* ================================================================== *)
(** * Delete, edit and the view *)

(** Which sources close the view from their handlers. *)
Lemma pages_closing_view :
  handlersCloseView DesignationPage_v1 = true /\
  handlersCloseView SubsidiaryPage_v1 = true /\
  handlersCloseView LocationPage_v1 = true /\
  handlersCloseView DesignationPage_v2 = false /\
  handlersCloseView SubsidiaryPage_v2 = false /\
  handlersCloseView LocationPage_v2 = false /\
  (forall rEmail, handlersCloseView (OrganizationPage_v1 rEmail) = false) /\
  (forall rEmail, handlersCloseView (OrganizationPage_v2 rEmail) = false).
Proof. repeat split. Qed.

Lemma handleDelete_eq `{E : Entity} (p : Page E) (id : Z) (s : PageState E) :
  handleDelete p true id s =
  Normal (mkPageState
            (deleteRow id (rows s))
            (if JS.idEq id (editingId s) then None else editingId s)
            (if JS.idEq id (editingId s) then false else isFormOpen s)
            (if handlersCloseView p && isViewing s id then None else viewed s)
            (if JS.idEq id (editingId s) then RHF.reset None (form s) else form s)).
Proof.
  unfold handleDelete, closure, seq, closeViewIf; simpl.
  destruct (JS.idEq id (editingId s)); simpl;
    destruct (handlersCloseView p); simpl; try reflexivity;
    destruct (isViewing s id); reflexivity.
Qed.

Lemma idEq_true (id : Z) (e : option Z) : JS.idEq id e = true <-> e = Some id.
Proof.
  unfold JS.idEq, JS.idNotEq. destruct e as [j|]; simpl.
  - rewrite negb_involutive, Z.eqb_eq. split; congruence.
  - split; discriminate.
Qed.

Lemma idEq_false (id : Z) (e : option Z) : JS.idEq id e = false <-> e <> Some id.
Proof.
  rewrite <- idEq_true. destruct (JS.idEq id e); split; congruence.
Qed.

(** C6 (as amended). On every page a confirmed delete removes from the
    store every record with the given id and no other; if the form was
    editing that record it is closed and its buffer reset, otherwise the
    form is left as it is. On the pages whose view is an inline panel
    (first sources of Designation, Subsidiary and Location) a view of the
    deleted record is closed; on the pages whose view is a modal overlay
    the handler leaves the view as it is. *)
Theorem delete_removes_record_and_closes_form `{E : Entity} (p : Page E)
    (id : Z) (s : PageState E) :
  let s' := stateOf (handleDelete p true id s) in
  (forall r, In r (rows s') <-> In r (rows s) /\ rowId r <> id) /\
  ~ In id (ids s') /\
  (editingId s = Some id ->
   editingId s' = None /\ isFormOpen s' = false /\
   form s' = RHF.reset None (form s)) /\
  (editingId s <> Some id ->
   editingId s' = editingId s /\ isFormOpen s' = isFormOpen s /\
   form s' = form s) /\
  (handlersCloseView p = true ->
   (isViewing s id = true -> viewed s' = None) /\
   (isViewing s id = false -> viewed s' = viewed s)) /\
  (handlersCloseView p = false -> viewed s' = viewed s) /\
  (let s'' := fire p (ClickDelete id true) s in
   rows s'' = rows s' /\ editingId s'' = editingId s' /\
   isFormOpen s'' = isFormOpen s' /\ viewed s'' = viewed s').
Proof.
  cbv zeta. rewrite handleDelete_eq. simpl.
  split; [intros r; apply In_deleteRow|].
  split.
  { unfold ids; simpl. intros Hin. apply in_map_iff in Hin as (r & Hid & Hr).
    apply In_deleteRow in Hr. tauto. }
  split.
  { intros He. apply idEq_true in He. rewrite He. auto. }
  split.
  { intros He. apply idEq_false in He. rewrite He. auto. }
  split.
  { intros ->. simpl. split; intros ->; reflexivity. }
  split.
  { intros ->. reflexivity. }
  unfold fire, dispatch. rewrite handleDelete_eq.
  apply afterRender_frame.
Qed.

(** C6, the claim as stated fails: on the Organization page the record
    shown in the view is deleted and the view stays open on it. *)
Lemma delete_leaves_modal_view_open :
  let p := OrganizationPage_v2 anyEmail in
  let r := O.mk 1 "Automotive Axles Limited" "AAL" "7797779699"
             "info@autoaxle.com" "9821719750"
             "Hootagalli Industrial Area, Off Hunsur Road," "Mysore"
             EmptyString "AAL" "Inactive" "Month 4" in
  let s1 := fire p (@ClickView OrganizationE r) (mount p initialOrganizations) in
  let s2 := fire p (ClickDelete 1 true) s1 in
  In r (rows s1) /\ viewed s1 = Some r /\
  reachable p initialOrganizations s2 /\
  rows s2 = [] /\ viewed s2 = Some r.
Proof.
  cbv zeta. split; [now left|]. split; [reflexivity|].
  split; [|split; reflexivity].
  apply reach_fire; [apply reach_fire; [constructor|]|]; simpl; auto.
Qed.

Lemma handleEdit_eq `{E : Entity} (p : Page E) (row : Row) (s : PageState E) :
  handleEdit p row s =
  Normal (mkPageState (rows s) (Some (rowId row)) true
            (if handlersCloseView p then None else viewed s) (form s)).
Proof.
  unfold handleEdit, seq, closeViewIf; simpl.
  destruct (handlersCloseView p); reflexivity.
Qed.

(** C10 (as amended). On every page Edit on a row opens the form on that
    row and leaves the store alone. On the pages whose view is an inline
    panel (first sources of Designation, Subsidiary and Location) it
    closes any open view, so form and view are not open together after
    it; on the pages whose view is a modal overlay it leaves the view as
    it is. *)
Theorem edit_closes_inline_view `{E : Entity} (p : Page E) (row : Row)
    (s : PageState E) :
  let s' := fire p (ClickEdit row) s in
  rows s' = rows s /\
  editingId s' = Some (rowId row) /\
  isFormOpen s' = true /\
  (handlersCloseView p = true -> viewed s' = None) /\
  (handlersCloseView p = false -> viewed s' = viewed s).
Proof.
  cbv zeta. unfold fire, dispatch. rewrite handleEdit_eq. cbn [stateOf].
  match goal with |- context [afterRender p s ?a] =>
    destruct (afterRender_frame p s a) as (-> & -> & -> & ->) end.
  simpl. repeat split; intros ->; reflexivity.
Qed.

(** C10, the claim as stated fails: on the Location page Edit is
    triggered while the view is open, and both are open afterwards. *)
Lemma edit_leaves_modal_view_open :
  let p := LocationPage_v2 in
  let r := L.mk 1 "AALMYS" "PANTNAGAR" "UK" "IN" "UK" "PANTNAGAR" "12345" in
  let s1 := fire p (@ClickView LocationE r) (mount p initialLocations) in
  let s2 := fire p (@ClickEdit LocationE r) s1 in
  reachable p initialLocations s2 /\
  viewed s1 = Some r /\
  editingId s2 = Some 1 /\ isFormOpen s2 = true /\ viewed s2 = Some r.
Proof.
  cbv zeta. split; [|repeat split].
  apply reach_fire; [apply reach_fire; [constructor|]|]; simpl; auto.
Qed.

(* ================================================================== *)
(** * The rules that look at the store *)

Section VerdictFacts.
Context {E : Entity}.
Variable p : Page E.

Lemma find_ext_in {A} (f g : A -> bool) (l : list A) :
  (forall x, In x l -> f x = g x) -> find f l = find g l.
Proof.
  induction l as [|a l IH]; simpl; [reflexivity|].
  intros H. rewrite (H a (or_introl eq_refl)).
  destruct (g a); [reflexivity|]. apply IH. intros x Hx. apply H. now right.
Qed.

(** The errors shown after a submit. *)
Lemma handleSubmit_errors (s : PageState E) :
  RHF.errors (form (stateOf (handleSubmit p s))) =
  match Yup.validate (schema p) (RHF.values (form s)) with
  | [] =>
      match firstDuplicate p (rows s) (editingId s) (RHF.values (form s)) with
      | Some c =>
          if setErrorBound p
          then [Yup.mkFieldError (ucField c) Yup.TManual (ucMessage c)]
          else []
      | None => []
      end
  | errs => errs
  end.
Proof.
  unfold handleSubmit, closure.
  destruct (Yup.validate (schema p) (RHF.values (form s))) as [|e errs]; [|reflexivity].
  unfold seq, onForm. rewrite onSubmit_eq. simpl.
  destruct (firstDuplicate p (rows s) (editingId s) (RHF.values (form s))) as [c|].
  - unfold callSetError. destruct (setErrorBound p); reflexivity.
  - unfold save. destruct (editingId s); reflexivity.
Qed.

(** Whether the submit handler returns normally. *)
Lemma handleSubmit_completed (s : PageState E) :
  completed (handleSubmit p s) =
  match Yup.validate (schema p) (RHF.values (form s)) with
  | [] =>
      match firstDuplicate p (rows s) (editingId s) (RHF.values (form s)) with
      | Some c => setErrorBound p
      | None => true
      end
  | _ => true
  end.
Proof.
  unfold handleSubmit, closure.
  destruct (Yup.validate (schema p) (RHF.values (form s))) as [|e errs]; [|reflexivity].
  unfold seq, onForm. rewrite onSubmit_eq. simpl.
  destruct (firstDuplicate p (rows s) (editingId s) (RHF.values (form s))) as [c|].
  - unfold callSetError. destruct (setErrorBound p); reflexivity.
  - unfold save. destruct (editingId s); reflexivity.
Qed.

End VerdictFacts.

(** The uniqueness tests of each source. *)
Lemma pages_uniqueness_tests :
  uniqueChecks DesignationPage_v1 = [] /\
  uniqueChecks SubsidiaryPage_v1 = [] /\
  uniqueChecks LocationPage_v1 = [] /\
  uniqueChecks DesignationPage_v2 = [keyCheck] /\
  uniqueChecks SubsidiaryPage_v2 = [keyCheck] /\
  uniqueChecks LocationPage_v2 = [keyCheck] /\
  (forall rEmail, uniqueChecks (OrganizationPage_v1 rEmail) = [keyCheck]) /\
  (forall rEmail, uniqueChecks (OrganizationPage_v2 rEmail) = [keyCheck; tenantCheck]).
Proof. repeat split. Qed.

(** C9 (as amended). On every page the outcome of a submit depends on the
    store only through the page's uniqueness tests: two stores on which
    those tests answer alike give, for the same buffer and editing id, the
    same errors and the same verdict; the schema rules never look at the
    store. The tests are the natural-key test on the pages that have one
    and, on the Organization page of unnamed/part_005, also a test on
    [tenantCode]. *)
Theorem verdict_depends_on_store_through_uniqueness_tests :
  (forall (E : Entity) (p : Page E) (s1 s2 : PageState E),
     form s1 = form s2 ->
     editingId s1 = editingId s2 ->
     (forall c, In c (uniqueChecks p) ->
        isDuplicate c (rows s1) (editingId s1) (RHF.values (form s1)) =
        isDuplicate c (rows s2) (editingId s2) (RHF.values (form s2))) ->
     RHF.errors (form (stateOf (handleSubmit p s1))) =
     RHF.errors (form (stateOf (handleSubmit p s2))) /\
     completed (handleSubmit p s1) = completed (handleSubmit p s2) /\
     (validationFails p s1 <-> validationFails p s2)) /\
  (uniqueChecks DesignationPage_v1 = [] /\
   uniqueChecks SubsidiaryPage_v1 = [] /\
   uniqueChecks LocationPage_v1 = [] /\
   uniqueChecks DesignationPage_v2 = [keyCheck] /\
   uniqueChecks SubsidiaryPage_v2 = [keyCheck] /\
   uniqueChecks LocationPage_v2 = [keyCheck] /\
   (forall rEmail, uniqueChecks (OrganizationPage_v1 rEmail) = [keyCheck]) /\
   (forall rEmail,
      uniqueChecks (OrganizationPage_v2 rEmail) = [keyCheck; tenantCheck])).
Proof.
  split; [|exact pages_uniqueness_tests].
  intros E p s1 s2 Hform Hid Hdup.
  assert (Hfd : firstDuplicate p (rows s1) (editingId s1) (RHF.values (form s1)) =
                firstDuplicate p (rows s2) (editingId s2) (RHF.values (form s2))).
  { unfold firstDuplicate. now apply find_ext_in. }
  rewrite !handleSubmit_errors, !handleSubmit_completed.
  unfold validationFails. rewrite Hfd, Hform. repeat split; tauto.
Qed.

(** C9, the claim as stated fails: on the Organization page the same
    buffer, with no stored organization code equal to its own, is accepted
    on an empty store and rejected on the seed store, on [tenantCode]. *)
Lemma tenant_code_is_checked_against_store :
  let p := OrganizationPage_v2 anyEmail in
  let s0 := mount p initialOrganizations in
  let s1 := run p [ClickAddNew; @Typing OrganizationE otherTenantValues] s0 in
  let s2 := run p [ClickDelete 1 true; ClickAddNew;
                   @Typing OrganizationE otherTenantValues] s0 in
  reachable p initialOrganizations s1 /\
  reachable p initialOrganizations s2 /\
  form s1 = form s2 /\ editingId s1 = editingId s2 /\
  isDuplicate (@keyCheck OrganizationE) (rows s1) None otherTenantValues = false /\
  isDuplicate (@keyCheck OrganizationE) (rows s2) None otherTenantValues = false /\
  Yup.validate (schema p) otherTenantValues = [] /\
  RHF.errors (form (stateOf (handleSubmit p s1))) =
    [Yup.mkFieldError "tenantCode" Yup.TManual
       "Tenant Code already exists. It must be unique."] /\
  rows (stateOf (handleSubmit p s1)) = initialOrganizations /\
  RHF.errors (form (stateOf (handleSubmit p s2))) = [] /\
  rows (stateOf (handleSubmit p s2)) = [@newRow OrganizationE 1 otherTenantValues].
Proof.
  cbv zeta. split; [|split; [|repeat split]].
  - apply reachable_run; [constructor|]. simpl. auto.
  - apply reachable_run; [constructor|]. simpl. auto.
Qed.

(* ================================================================== *)
(** * Uniqueness of the checked fields *)

Lemma idNotEq_true (i : Z) (e : option Z) :
  JS.idNotEq i e = true <-> forall j, e = Some j -> i <> j.
Proof.
  unfold JS.idNotEq. destruct e as [j|].
  - rewrite negb_true_iff, Z.eqb_neq. split.
    + intros H k Hk. congruence.
    + intros H. now apply H.
  - split; [intros _ j Hj; discriminate|reflexivity].
Qed.

Lemma isDuplicate_true_iff `{E : Entity} (c : UniqueCheck E) (rs : list Row)
    (eid : option Z) (data : Values) :
  isDuplicate c rs eid data = true <->
  exists row, In row rs /\ sameKey (ucRow c row) (ucData c data) /\
              forall j, eid = Some j -> rowId row <> j.
Proof.
  unfold isDuplicate, sameKey, JS.strictEq. rewrite existsb_exists.
  split; intros (row & Hin & H); exists row; split; auto.
  - apply andb_true_iff in H as [Hk Hi].
    apply String.eqb_eq in Hk. split; [assumption|].
    exact (proj1 (idNotEq_true _ _) Hi).
  - destruct H as [Hk Hi]. apply andb_true_iff.
    split; [now apply String.eqb_eq|exact (proj2 (idNotEq_true _ _) Hi)].
Qed.

Lemma isDuplicate_false_elim `{E : Entity} (c : UniqueCheck E) (rs : list Row)
    (eid : option Z) (data : Values) (row : Row) :
  isDuplicate c rs eid data = false ->
  In row rs -> sameKey (ucRow c row) (ucData c data) ->
  eid = Some (rowId row).
Proof.
  intros Hd Hin Hk.
  destruct eid as [j|].
  - destruct (Z.eq_dec (rowId row) j) as [->|Hne]; [reflexivity|].
    assert (isDuplicate c rs (Some j) data = true); [|congruence].
    apply isDuplicate_true_iff. exists row. repeat split; auto. congruence.
  - assert (isDuplicate c rs None data = true); [|congruence].
    apply isDuplicate_true_iff. exists row. repeat split; auto. discriminate.
Qed.

Lemma coherent_keyCheck `{E : Entity} : coherent keyCheck.
Proof.
  unfold coherent; simpl. split; [apply rowKey_newRow|].
  split; [apply dataKey_rowValues|left; apply rowKey_patchRow].
Qed.

Lemma coherent_tenantCheck : coherent tenantCheck.
Proof.
  unfold coherent; simpl. split; [reflexivity|]. split; [reflexivity|].
  right. reflexivity.
Qed.

(** Every uniqueness test of the sources is coherent with the way rows
    are built. *)
Lemma source_pages_coherent :
  (forall c, In c (uniqueChecks DesignationPage_v1) -> coherent c) /\
  (forall c, In c (uniqueChecks DesignationPage_v2) -> coherent c) /\
  (forall c, In c (uniqueChecks SubsidiaryPage_v1) -> coherent c) /\
  (forall c, In c (uniqueChecks SubsidiaryPage_v2) -> coherent c) /\
  (forall c, In c (uniqueChecks LocationPage_v1) -> coherent c) /\
  (forall c, In c (uniqueChecks LocationPage_v2) -> coherent c) /\
  (forall rEmail c, In c (uniqueChecks (OrganizationPage_v1 rEmail)) -> coherent c) /\
  (forall rEmail c, In c (uniqueChecks (OrganizationPage_v2 rEmail)) -> coherent c).
Proof.
  repeat match goal with |- _ /\ _ => split end; simpl; intros;
    repeat match goal with
           | H : _ \/ _ |- _ => destruct H
           | H : False |- _ => destruct H
           end; subst;
    first [apply coherent_keyCheck | apply coherent_tenantCheck].
Qed.

Section UniquenessInvariant.
Context {E : Entity}.
Variable p : Page E.
Hypothesis Hcoh : forall c, In c (uniqueChecks p) -> coherent c.

Lemma uniqueFor_append (c : UniqueCheck E) (rs : list Row) (data : Values) :
  coherent c ->
  isDuplicate c rs None data = false ->
  uniqueFor c rs ->
  uniqueFor c (rs ++ [newRow (nextId rs) data]).
Proof.
  intros (Hnew & _ & _) Hd Hu r1 r2 H1 H2 Hk.
  apply in_app_or in H1 as [H1|[<-|[]]]; apply in_app_or in H2 as [H2|[<-|[]]].
  - now apply Hu.
  - rewrite Hnew in Hk.
    pose proof (isDuplicate_false_elim c rs None data r1 Hd H1 Hk). discriminate.
  - rewrite Hnew in Hk. symmetry in Hk.
    pose proof (isDuplicate_false_elim c rs None data r2 Hd H2 Hk). discriminate.
  - reflexivity.
Qed.

Lemma uniqueFor_update (c : UniqueCheck E) (rs : list Row) (i : Z) (data : Values) :
  coherent c ->
  isDuplicate c rs (Some i) data = false ->
  uniqueFor c rs ->
  uniqueFor c (updateRows i data rs).
Proof.
  intros (_ & _ & Hpatch) Hd Hu r1' r2' H1 H2 Hk.
  unfold updateRows in H1, H2.
  apply in_map_iff in H1 as (r1 & <- & H1).
  apply in_map_iff in H2 as (r2 & <- & H2).
  cbv beta in *.
  destruct (Z.eqb_spec (rowId r1) i) as [E1|E1];
    destruct (Z.eqb_spec (rowId r2) i) as [E2|E2];
    rewrite ?rowId_patchRow.
  - congruence.
  - destruct Hpatch as [Hkeep|Htake].
    + rewrite Hkeep in Hk. now apply Hu.
    + rewrite Htake in Hk. symmetry in Hk.
      pose proof (isDuplicate_false_elim c rs (Some i) data r2 Hd H2 Hk). congruence.
  - destruct Hpatch as [Hkeep|Htake].
    + rewrite Hkeep in Hk. now apply Hu.
    + rewrite Htake in Hk.
      pose proof (isDuplicate_false_elim c rs (Some i) data r1 Hd H1 Hk). congruence.
  - now apply Hu.
Qed.

Lemma uniqueFor_delete (c : UniqueCheck E) (rs : list Row) (id : Z) :
  uniqueFor c rs -> uniqueFor c (deleteRow id rs).
Proof.
  intros Hu r1 r2 H1 H2. apply In_deleteRow in H1 as [H1 _].
  apply In_deleteRow in H2 as [H2 _]. now apply Hu.
Qed.

Lemma uniqueFor_fire (c : UniqueCheck E) (ev : Event E) (s : PageState E) :
  In c (uniqueChecks p) ->
  uniqueFor c (rows s) -> uniqueFor c (rows (fire p ev s)).
Proof.
  intros Hc Hu. rewrite rows_fire.
  destruct (rows_dispatch p ev s) as [H|[(id & _ & H)|(_ & [_ Hfd] & H)]].
  - now rewrite H.
  - rewrite H. now apply uniqueFor_delete.
  - unfold firstDuplicate in Hfd.
    pose proof (proj1 (find_none_iff _ _) Hfd c Hc) as Hd. simpl in Hd.
    destruct (editingId s) as [i|]; rewrite H.
    + apply uniqueFor_update; auto.
    + apply uniqueFor_append; auto.
Qed.

Lemma reachable_uniqueFor (seed : list Row) (s : PageState E) (c : UniqueCheck E) :
  In c (uniqueChecks p) ->
  uniqueFor c seed -> reachable p seed s -> uniqueFor c (rows s).
Proof.
  intros Hc Hseed Hr. induction Hr as [|s ev Hr IH Hen].
  - now rewrite rows_mount.
  - now apply uniqueFor_fire.
Qed.

(** A row never counts as a duplicate of data that carries its own value
    of the checked field, while that row is the one being edited. *)
Lemma own_value_is_not_duplicate (c : UniqueCheck E) (rs : list Row)
    (R : Row) (data : Values) :
  uniqueFor c rs -> In R rs ->
  sameKey (ucData c data) (ucRow c R) ->
  isDuplicate c rs (Some (rowId R)) data = false.
Proof.
  intros Hu HR Hk.
  destruct (isDuplicate c rs (Some (rowId R)) data) eqn:Hd; [|reflexivity].
  apply isDuplicate_true_iff in Hd as (row & Hin & Hrow & Hne).
  exfalso. apply (Hne (rowId R) eq_refl).
  apply Hu; auto. unfold sameKey in *. congruence.
Qed.

End UniquenessInvariant.

(** C7. On every page, in every state reachable from a seed whose checked
    fields are unique, a record [R] that is being edited and whose buffer
    carries [R]'s own natural key, in any letter case, passes the
    duplicate-key test, because the test skips the rows whose id is the
    editing id; and a buffer that holds [R]'s stored values unchanged is
    rejected by none of the page's uniqueness tests. A test that fires
    always points at a row whose id is not the editing id. *)
Theorem own_key_passes_duplicate_check `{E : Entity} (p : Page E)
    (seed : list Row) (s : PageState E) (R : Row) :
  (forall c, In c (uniqueChecks p) -> coherent c) ->
  (forall c, In c (uniqueChecks p) -> uniqueFor c seed) ->
  reachable p seed s ->
  In R (rows s) ->
  (forall data,
     In keyCheck (uniqueChecks p) ->
     sameKey (dataKey data) (rowKey R) ->
     isDuplicate keyCheck (rows s) (Some (rowId R)) data = false) /\
  firstDuplicate p (rows s) (Some (rowId R)) (rowValues R) = None /\
  (forall c data,
     isDuplicate c (rows s) (Some (rowId R)) data = true ->
     exists row, In row (rows s) /\ rowId row <> rowId R /\
                 sameKey (ucRow c row) (ucData c data)).
Proof.
  intros Hcoh Hseed Hr HR. split; [|split].
  - intros data Hc Hk.
    apply own_value_is_not_duplicate; auto.
    eapply reachable_uniqueFor; eauto.
  - unfold firstDuplicate. apply find_none_iff. intros c Hc.
    apply own_value_is_not_duplicate; auto.
    + eapply reachable_uniqueFor; eauto.
    + destruct (Hcoh c Hc) as (_ & Hv & _). rewrite Hv. reflexivity.
  - intros c data Hd. apply isDuplicate_true_iff in Hd as (row & Hin & Hk & Hne).
    exists row. repeat split; auto.
Qed.

Lemma singleton_unique `{E : Entity} (c : UniqueCheck E) (r : Row) :
  uniqueFor c [r].
Proof. intros r1 r2 [<-|[]] [<-|[]] _. reflexivity. Qed.

Lemma initialDesignations_keys_unique :
  uniqueFor keyCheck initialDesignations.
Proof.
  intros r1 r2 [<-|[<-|[]]] [<-|[<-|[]]] Hk;
    try reflexivity; vm_compute in Hk; discriminate.
Qed.

(** The natural-key test of each source that has one, on its own seed
    (for Subsidiary, whose seed file is not part of the sources, on any
    seed of one record): the edited record's own key, in any letter case,
    is never a duplicate. *)
Lemma own_key_passes_on_every_source :
  (forall s R data,
     reachable DesignationPage_v2 initialDesignations s -> In R (rows s) ->
     sameKey (DV.designationCode data) (D.designationCode R) ->
     isDuplicate keyCheck (rows s) (Some (D.id R)) data = false) /\
  (forall s R data,
     reachable LocationPage_v2 initialLocations s -> In R (rows s) ->
     sameKey (LV.locationCode data) (L.locationCode R) ->
     isDuplicate keyCheck (rows s) (Some (L.id R)) data = false) /\
  (forall seedRow s R data,
     reachable SubsidiaryPage_v2 [seedRow] s -> In R (rows s) ->
     sameKey (SV.subsidiaryCode data) (S.subsidiaryCode R) ->
     isDuplicate keyCheck (rows s) (Some (S.id R)) data = false) /\
  (forall rEmail s R data,
     reachable (OrganizationPage_v1 rEmail) initialOrganizations s -> In R (rows s) ->
     sameKey (OV.organizationCode data) (O.organizationCode R) ->
     isDuplicate keyCheck (rows s) (Some (O.id R)) data = false) /\
  (forall rEmail s R data,
     reachable (OrganizationPage_v2 rEmail) initialOrganizations s -> In R (rows s) ->
     sameKey (OV.organizationCode data) (O.organizationCode R) ->
     isDuplicate keyCheck (rows s) (Some (O.id R)) data = false).
Proof.
  destruct source_pages_coherent as (_ & Hd & _ & Hs & _ & Hl & Ho1 & Ho2).
  repeat match goal with |- _ /\ _ => split end; intros.
  - apply (@own_value_is_not_duplicate DesignationE keyCheck (rows s) R data); auto.
    apply (@reachable_uniqueFor DesignationE DesignationPage_v2 Hd
             initialDesignations s keyCheck); auto; [now left|].
    exact initialDesignations_keys_unique.
  - apply (@own_value_is_not_duplicate LocationE keyCheck (rows s) R data); auto.
    apply (@reachable_uniqueFor LocationE LocationPage_v2 Hl
             initialLocations s keyCheck); auto; [now left|].
    apply singleton_unique.
  - apply (@own_value_is_not_duplicate SubsidiaryE keyCheck (rows s) R data); auto.
    apply (@reachable_uniqueFor SubsidiaryE SubsidiaryPage_v2 Hs
             [seedRow] s keyCheck); auto; [now left|].
    apply singleton_unique.
  - apply (@own_value_is_not_duplicate OrganizationE keyCheck (rows s) R data); auto.
    apply (@reachable_uniqueFor OrganizationE (OrganizationPage_v1 rEmail) (Ho1 rEmail)
             initialOrganizations s keyCheck); auto; [now left|].
    apply singleton_unique.
  - apply (@own_value_is_not_duplicate OrganizationE keyCheck (rows s) R data); auto.
    apply (@reachable_uniqueFor OrganizationE (OrganizationPage_v2 rEmail) (Ho2 rEmail)
             initialOrganizations s keyCheck); auto; [now left|].
    apply singleton_unique.
Qed.

(* ================================================================== *)
(** * Duplicate keys *)

(** Where [setError] is bound, a duplicate is reported on the checked
    field as a manual error and nothing else changes. *)
Lemma duplicate_reported_when_setError_bound `{E : Entity} (p : Page E)
    (s : PageState E) (c : UniqueCheck E) :
  setErrorBound p = true ->
  Yup.validate (schema p) (RHF.values (form s)) = [] ->
  firstDuplicate p (rows s) (editingId s) (RHF.values (form s)) = Some c ->
  RHF.errors (form (fire p SubmitForm s)) =
    [Yup.mkFieldError (ucField c) Yup.TManual (ucMessage c)] /\
  Yup.classify Yup.TManual = Yup.DuplicateKey /\
  completed (handleSubmit p s) = true /\
  sameButErrors s (fire p SubmitForm s).
Proof.
  intros Hb Hv Hd.
  assert (Hf : validationFails p s) by (right; congruence).
  assert (Hs : sameButErrors s (stateOf (handleSubmit p s)))
    by now apply handleSubmit_fails.
  assert (Hfire : fire p SubmitForm s = stateOf (handleSubmit p s)).
  { unfold fire, dispatch. apply afterRender_same_editingRow; apply Hs. }
  rewrite Hfire, handleSubmit_errors, handleSubmit_completed, Hv, Hd, Hb. auto.
Qed.

(** On a page whose first test is the natural-key test and which binds
    [setError], a valid buffer whose key equals, in any letter case, the
    key of a stored record other than the edited one is rejected with a
    manual error on the key field, and nothing else changes. *)
Lemma duplicate_key_rejected_on_checking_pages `{E : Entity} (p : Page E)
    (s : PageState E) (r : Row) (rest : list (UniqueCheck E)) :
  uniqueChecks p = keyCheck :: rest ->
  setErrorBound p = true ->
  Yup.validate (schema p) (RHF.values (form s)) = [] ->
  In r (rows s) ->
  sameKey (rowKey r) (dataKey (RHF.values (form s))) ->
  editingId s <> Some (rowId r) ->
  RHF.errors (form (fire p SubmitForm s)) =
    [Yup.mkFieldError keyField Yup.TManual keyMessage] /\
  sameButErrors s (fire p SubmitForm s).
Proof.
  intros Hc Hb Hv Hr Hk He.
  assert (Hd : firstDuplicate p (rows s) (editingId s) (RHF.values (form s))
               = Some keyCheck).
  { unfold firstDuplicate. rewrite Hc. simpl.
    assert (Hdup : isDuplicate keyCheck (rows s) (editingId s)
                     (RHF.values (form s)) = true).
    { apply isDuplicate_true_iff. exists r. repeat split; auto.
      intros j Hj Hid. apply He. congruence. }
    now rewrite Hdup. }
  destruct (duplicate_reported_when_setError_bound p s Hb Hv Hd) as (H1 & _ & _ & H2).
  auto.
Qed.

(** The Designation scenario: with the seed [DRV], [SEC], creating [drv]
    is rejected on the code field and the store keeps its two records;
    creating [MGR] is accepted and the new record has id 3. *)
Lemma designation_scenario :
  let p := DesignationPage_v2 in
  let s0 := mount p initialDesignations in
  let s1 := run p [ClickAddNew; @Typing DesignationE duplicateDriverValues; SubmitForm] s0 in
  let s2 := run p [ClickAddNew; @Typing DesignationE managerValues; SubmitForm] s0 in
  rows s1 = initialDesignations /\
  isFormOpen s1 = true /\
  RHF.errors (form s1) =
    [Yup.mkFieldError "designationCode" Yup.TManual
       "Designation Code already exists. It must be unique."] /\
  rows s2 = initialDesignations ++ [D.mk 3 "MGR" "Manager"] /\
  isFormOpen s2 = false.
Proof. cbv zeta. repeat split. Qed.

(** C1, at the failing input. On the Location page of
    src/pages/LocationPage.tsx the store holds the key [AALMYS]; the form
    is opened with Add New and submitted with the key [aalmys] in an
    otherwise valid buffer. [onSubmit] finds the duplicate and calls
    [setError], which the page never binds: the handler ends with a
    [ReferenceError] and no error is recorded on [locationCode]. *)
Theorem location_duplicate_raises_reference_error :
  let p := LocationPage_v2 in
  let s := run p [ClickAddNew; @Typing LocationE duplicateLocationValues]
             (mount p initialLocations) in
  reachable p initialLocations s /\
  Yup.validate (schema p) (RHF.values (form s)) = [] /\
  isDuplicate (@keyCheck LocationE) (rows s) (editingId s) (RHF.values (form s)) = true /\
  handleSubmit p s = Throw (ReferenceError "setError") s /\
  Yup.errorOn (RHF.errors (form (fire p SubmitForm s))) "locationCode" = None /\
  rows (fire p SubmitForm s) = initialLocations.
Proof.
  cbv zeta. split; [|repeat split].
  apply reachable_run; [constructor|]. simpl. auto.
Qed.

(** The earlier Location page has no uniqueness test at all: the same
    submit stores a second record with the key [aalmys]. *)
Lemma location_v1_stores_duplicate_key :
  let p := LocationPage_v1 in
  let s := run p [ClickAddNew; @Typing LocationE duplicateLocationValues; SubmitForm]
             (mount p initialLocations) in
  map rowKey (rows s) = ["AALMYS"; "aalmys"] /\ ids s = [1; 2].
Proof. cbv zeta. split; reflexivity. Qed.

(* ================================================================== *)
(** * The theorems at concrete inputs *)

Lemma initialDesignations_unique :
  forall c, In c (uniqueChecks DesignationPage_v2) -> uniqueFor c initialDesignations.
Proof. intros c [<-|[]]. exact initialDesignations_keys_unique. Qed.

(** Creating [MGR] on the Designation seed. *)
Lemma create_appends_one_record_witness :
  let p := DesignationPage_v2 in
  let s := run p [ClickAddNew; @Typing DesignationE managerValues]
             (mount p initialDesignations) in
  (editingId s = None /\ validationPasses p s) /\
  rows (fire p SubmitForm s) = initialDesignations ++ [D.mk 3 "MGR" "Manager"].
Proof.
  cbv zeta.
  split; [split; [reflexivity|split; reflexivity]|].
  exact (proj1 (@create_appends_one_record DesignationE DesignationPage_v2
                  (run DesignationPage_v2
                     [ClickAddNew; @Typing DesignationE managerValues]
                     (mount DesignationPage_v2 initialDesignations))
                  eq_refl (conj eq_refl eq_refl))).
Defined.

(** The Organization scenario: record 1 is edited and submitted with its
    code changed to [XYZ]; the stored record keeps the code [AAL]. *)
Lemma update_keeps_natural_key_witness :
  let p := OrganizationPage_v2 anyEmail in
  let s := run p [@ClickEdit OrganizationE axlesRow;
                  @Typing OrganizationE renamedOrganizationValues]
             (mount p initialOrganizations) in
  (nth_error (rows s) 0 = Some axlesRow /\ editingId s = Some 1) /\
  exists R',
    nth_error (rows (fire p SubmitForm s)) 0 = Some R' /\
    O.organizationCode R' = "AAL" /\ O.id R' = 1 /\
    (validationPasses p s ->
     R' = @patchRow OrganizationE axlesRow renamedOrganizationValues) /\
    (validationFails p s -> R' = axlesRow).
Proof.
  cbv zeta. split; [split; reflexivity|].
  exact (proj1 (proj2 update_keeps_natural_key) OrganizationE
           (OrganizationPage_v2 anyEmail)
           (run (OrganizationPage_v2 anyEmail)
              [@ClickEdit OrganizationE axlesRow;
               @Typing OrganizationE renamedOrganizationValues]
              (mount (OrganizationPage_v2 anyEmail) initialOrganizations))
           0%nat axlesRow eq_refl eq_refl).
Defined.

Lemma supervisor_typed_reachable :
  reachable DesignationPage_v1 initialDesignations
    (run DesignationPage_v1
       [ClickAddNew; @Typing DesignationE managerValues; SubmitForm;
        ClickDelete 3 true;
        ClickAddNew; @Typing DesignationE supervisorValues]
       (mount DesignationPage_v1 initialDesignations)).
Proof. apply reachable_run; [constructor|]. simpl. repeat split; auto. Qed.

(** On the Designation page [MGR] was created with id 3 and deleted, and
    the form is open on [SUP]: the ids 1 and 2 are distinct, and the
    create that follows brings in the id 3, which is the largest stored
    id plus one and above both. *)
Lemma ids_distinct_and_above_stored_witness :
  let p := DesignationPage_v1 in
  let s := run p [ClickAddNew; @Typing DesignationE managerValues; SubmitForm;
                  ClickDelete 3 true;
                  ClickAddNew; @Typing DesignationE supervisorValues]
             (mount p initialDesignations) in
  (NoDup (map rowId initialDesignations) /\
   reachable p initialDesignations s /\
   editingId s = None /\ validationPasses p s /\
   In 3 (ids (fire p SubmitForm s)) /\ ~ In 3 (ids s)) /\
  NoDup (ids s) /\
  (3 = nextId (rows s) /\ forall j, In j (ids s) -> j < 3) /\
  ids (fire p SubmitForm s) = ids s ++ [nextId (rows s)].
Proof.
  cbv zeta.
  assert (Hnd : NoDup (map rowId initialDesignations)).
  { simpl. repeat constructor; simpl; intuition discriminate. }
  assert (Hp : validationPasses DesignationPage_v1
                 (run DesignationPage_v1
                    [ClickAddNew; @Typing DesignationE managerValues; SubmitForm;
                     ClickDelete 3 true;
                     ClickAddNew; @Typing DesignationE supervisorValues]
                    (mount DesignationPage_v1 initialDesignations))).
  { split; reflexivity. }
  assert (Hin : In 3 (ids (fire DesignationPage_v1 SubmitForm
                 (run DesignationPage_v1
                    [ClickAddNew; @Typing DesignationE managerValues; SubmitForm;
                     ClickDelete 3 true;
                     ClickAddNew; @Typing DesignationE supervisorValues]
                    (mount DesignationPage_v1 initialDesignations))))).
  { simpl. auto. }
  assert (Hnot : ~ In 3 (ids
                 (run DesignationPage_v1
                    [ClickAddNew; @Typing DesignationE managerValues; SubmitForm;
                     ClickDelete 3 true;
                     ClickAddNew; @Typing DesignationE supervisorValues]
                    (mount DesignationPage_v1 initialDesignations)))).
  { simpl. intuition discriminate. }
  split.
  { split; [exact Hnd|]. split; [exact supervisor_typed_reachable|].
    split; [reflexivity|]. split; [exact Hp|]. split; [exact Hin|exact Hnot]. }
  pose (T := @ids_distinct_and_above_stored DesignationE DesignationPage_v1
               initialDesignations _ Hnd supervisor_typed_reachable).
  exact (conj (proj1 T)
           (conj (proj1 (proj2 T) SubmitForm 3 Hin Hnot)
                 (proj1 (proj2 (proj2 T) eq_refl Hp)))).
Defined.

(** The duplicate-key failure on the Location page. *)
Lemma failed_submit_changes_nothing_witness :
  let p := LocationPage_v2 in
  let s := run p [ClickAddNew; @Typing LocationE duplicateLocationValues]
             (mount p initialLocations) in
  validationFails p s /\
  sameButErrors s (stateOf (handleSubmit p s)) /\
  sameButErrors s (fire p SubmitForm s).
Proof.
  cbv zeta.
  assert (Hf : validationFails LocationPage_v2
                 (run LocationPage_v2
                    [ClickAddNew; @Typing LocationE duplicateLocationValues]
                    (mount LocationPage_v2 initialLocations))).
  { right. vm_compute. discriminate. }
  split; [exact Hf|].
  exact (@failed_submit_changes_nothing LocationE LocationPage_v2 _ Hf).
Defined.

(** Deleting the viewed record on the first Designation page. *)
Lemma delete_removes_record_and_closes_form_witness :
  let p := DesignationPage_v1 in
  let s := run p [@ClickView DesignationE securityRow;
                  @ClickEdit DesignationE securityRow;
                  @ClickView DesignationE securityRow]
             (mount p initialDesignations) in
  (editingId s = Some 2 /\ handlersCloseView p = true /\ isViewing s 2 = true) /\
  let s' := stateOf (handleDelete p true 2 s) in
  ~ In 2 (ids s') /\ editingId s' = None /\ isFormOpen s' = false /\
  viewed s' = None.
Proof.
  cbv zeta.
  pose proof (@delete_removes_record_and_closes_form DesignationE DesignationPage_v1 2
                (run DesignationPage_v1
                   [@ClickView DesignationE securityRow;
                    @ClickEdit DesignationE securityRow;
                    @ClickView DesignationE securityRow]
                   (mount DesignationPage_v1 initialDesignations)))
    as (_ & Hgone & Hedit & _ & Hview & _).
  split; [repeat split|].
  destruct (Hedit eq_refl) as (He & Ho & _).
  destruct (Hview eq_refl) as (Hv & _).
  exact (conj Hgone (conj He (conj Ho (Hv eq_refl)))).
Defined.

(** Editing the own key in lower case on the Designation page. *)
Lemma own_key_passes_duplicate_check_witness :
  let p := DesignationPage_v2 in
  let s := fire p (@ClickEdit DesignationE driverRow) (mount p initialDesignations) in
  (reachable p initialDesignations s /\ In driverRow (rows s) /\
   sameKey "drv" (rowKey driverRow)) /\
  isDuplicate keyCheck (rows s) (Some 1) (DV.mk "drv" "Chauffeur") = false.
Proof.
  cbv zeta.
  assert (Hr : reachable DesignationPage_v2 initialDesignations
                 (fire DesignationPage_v2 (@ClickEdit DesignationE driverRow)
                    (mount DesignationPage_v2 initialDesignations))).
  { apply reach_fire; [constructor|]. simpl. auto. }
  assert (Hin : In driverRow
                  (rows (fire DesignationPage_v2 (@ClickEdit DesignationE driverRow)
                           (mount DesignationPage_v2 initialDesignations)))).
  { simpl. auto. }
  split; [split; [exact Hr|split; [exact Hin|reflexivity]]|].
  exact (proj1 (@own_key_passes_duplicate_check DesignationE DesignationPage_v2
                  initialDesignations _ driverRow
                  (proj1 (proj2 source_pages_coherent))
                  initialDesignations_unique Hr Hin)
           (DV.mk "drv" "Chauffeur") (or_introl eq_refl) eq_refl).
Defined.

(** Two Designation stores on which the key test answers alike. *)
Lemma verdict_depends_on_store_witness :
  let p := DesignationPage_v2 in
  let s0 := mount p initialDesignations in
  let s1 := run p [ClickAddNew; @Typing DesignationE managerValues] s0 in
  let s2 := run p [ClickDelete 2 true; ClickAddNew;
                   @Typing DesignationE managerValues] s0 in
  (form s1 = form s2 /\ editingId s1 = editingId s2 /\ rows s1 <> rows s2) /\
  RHF.errors (form (stateOf (handleSubmit p s1))) =
  RHF.errors (form (stateOf (handleSubmit p s2))).
Proof.
  cbv zeta. split; [split; [reflexivity|split; [reflexivity|discriminate]]|].
  refine (proj1 (proj1 verdict_depends_on_store_through_uniqueness_tests
                   DesignationE DesignationPage_v2 _ _ eq_refl eq_refl _)).
  intros c [<-|[]]. reflexivity.
Defined.

(** Edit with the view open on the first Location page. *)
Lemma edit_closes_inline_view_witness :
  let p := LocationPage_v1 in
  let s := fire p (@ClickView LocationE pantnagarRow) (mount p initialLocations) in
  (viewed s = Some pantnagarRow /\ handlersCloseView p = true) /\
  let s' := fire p (@ClickEdit LocationE pantnagarRow) s in
  isFormOpen s' = true /\ editingId s' = Some 1 /\ viewed s' = None.
Proof.
  cbv zeta.
  pose proof (@edit_closes_inline_view LocationE LocationPage_v1 pantnagarRow
                (fire LocationPage_v1 (@ClickView LocationE pantnagarRow)
                   (mount LocationPage_v1 initialLocations)))
    as (_ & He & Ho & Hv & _).
  split; [split; reflexivity|].
  exact (conj Ho (conj He (Hv eq_refl))).
Defined.

(* ================================================================== *)
(** * Further properties of the handlers *)

Section MoreHandlerFacts.
Context {E : Entity}.
Variable p : Page E.

Lemma handleAddNew_eq (s : PageState E) :
  handleAddNew p s =
  Normal (mkPageState (rows s) None true
            (if handlersCloseView p then None else viewed s)
            (RHF.reset None (form s))).
Proof.
  unfold handleAddNew, seq, closeViewIf; simpl.
  destruct (handlersCloseView p); reflexivity.
Qed.

Lemma handleCancel_eq (s : PageState E) :
  handleCancel s =
  Normal (mkPageState (rows s) None false (viewed s) (RHF.reset None (form s))).
Proof. reflexivity. Qed.

Lemma handleDelete_declined (id : Z) (s : PageState E) :
  handleDelete p false id s = Normal s.
Proof. reflexivity. Qed.

Lemma sameRow_true (a b : option Row) : sameRow a b = true -> a = b.
Proof.
  destruct a as [x|], b as [y|]; simpl; try discriminate; try reflexivity.
  destruct (rowEqDec x y); [congruence|discriminate].
Qed.

(** The four state cells after an event are those left by its handler. *)
Lemma fire_cells (ev : Event E) (s : PageState E) :
  rows (fire p ev s) = rows (stateOf (dispatch p ev s)) /\
  editingId (fire p ev s) = editingId (stateOf (dispatch p ev s)) /\
  isFormOpen (fire p ev s) = isFormOpen (stateOf (dispatch p ev s)) /\
  viewed (fire p ev s) = viewed (stateOf (dispatch p ev s)).
Proof. unfold fire. apply afterRender_frame. Qed.

(** The state that a passing submit leaves. *)
Lemma handleSubmit_passes_cells (s : PageState E) :
  validationPasses p s ->
  editingId (stateOf (handleSubmit p s)) = None /\
  isFormOpen (stateOf (handleSubmit p s)) = false /\
  viewed (stateOf (handleSubmit p s)) = viewed s /\
  form (stateOf (handleSubmit p s)) =
    RHF.mkForm (RHF.defaultValues (form s)) (RHF.defaultValues (form s)) [].
Proof. intros Hp. rewrite (handleSubmit_passes Hp). simpl. auto. Qed.

End MoreHandlerFacts.

(** X1. The store changes only through a submit that passes validation or
    a confirmed delete; every other event, a failed submit and a declined
    delete leave the list of records exactly as it was, and a declined
    delete leaves the whole page state as it was. *)
Theorem store_changes_only_by_submit_or_delete `{E : Entity} (p : Page E)
    (ev : Event E) (s : PageState E) :
  (rows (fire p ev s) <> rows s ->
   (ev = SubmitForm /\ validationPasses p s) \/
   (exists id, ev = ClickDelete id true /\ In id (ids s))) /\
  (forall id, fire p (ClickDelete id false) s = s).
Proof.
  split.
  - intros Hne. rewrite rows_fire in Hne.
    destruct (rows_dispatch p ev s) as [H|[(id & Hev & H)|(Hev & Hp & _)]].
    + contradiction.
    + right. exists id. split; [assumption|].
      destruct (in_dec Z.eq_dec id (ids s)) as [Hin|Hout]; [assumption|].
      exfalso. apply Hne. rewrite H. unfold deleteRow.
      clear - Hout. unfold ids in Hout.
      induction (rows s) as [|r rs IH]; simpl in *; [reflexivity|].
      destruct (Z.eqb_spec (rowId r) id) as [Heq|Hneq]; simpl.
      * exfalso. apply Hout. now left.
      * f_equal. apply IH. intros Hin. apply Hout. now right.
    + left. auto.
  - intros id. unfold fire, dispatch. rewrite handleDelete_declined.
    now apply afterRender_same_editingRow.
Qed.

(** X2. The view is a snapshot that only the view buttons and, on the
    pages with an inline panel, Add New, Edit and a confirmed Delete can
    change: a submit (passing or not), a cancel and typing never touch it,
    so after an update the view still shows the record as it was when View
    was clicked. *)
Theorem view_changes_only_by_view_events `{E : Entity} (p : Page E)
    (ev : Event E) (s : PageState E) :
  viewed (fire p ev s) <> viewed s ->
  (exists row, ev = ClickView row) \/
  ev = ClickCloseView \/
  (handlersCloseView p = true /\
   (ev = ClickAddNew \/ (exists row, ev = ClickEdit row) \/
    (exists id, ev = ClickDelete id true /\ isViewing s id = true))).
Proof.
  intros Hne. destruct (fire_cells p ev s) as (_ & _ & _ & Hv).
  rewrite Hv in Hne. clear Hv.
  destruct ev as [| row | row | | id confirmed | | v |]; simpl in Hne.
  - rewrite handleAddNew_eq in Hne. simpl in Hne.
    destruct (handlersCloseView p); [|contradiction]. right; right. auto.
  - rewrite handleEdit_eq in Hne. simpl in Hne.
    destruct (handlersCloseView p); [|contradiction]. right; right. eauto.
  - left. eauto.
  - right; left. reflexivity.
  - destruct confirmed; [|contradiction].
    rewrite handleDelete_eq in Hne. simpl in Hne.
    destruct (handlersCloseView p); simpl in Hne; [|contradiction].
    destruct (isViewing s id) eqn:Hi; [|contradiction].
    right; right. split; [reflexivity|]. right; right. eauto.
  - contradiction.
  - contradiction.
  - destruct (validation_decided p s) as [Hf|Hp].
    + apply handleSubmit_fails in Hf. destruct Hf as (_ & _ & _ & Hv & _).
      contradiction.
    + apply handleSubmit_passes_cells in Hp. destruct Hp as (_ & _ & Hv & _).
      contradiction.
Qed.

(** A non-null [editingId] is the id of a stored record, and the form is
    open. *)
Lemma reachable_editing_stored `{E : Entity} (p : Page E) (seed : list Row)
    (s : PageState E) (i : Z) :
  reachable p seed s ->
  editingId s = Some i ->
  isFormOpen s = true /\ In i (ids s).
Proof.
  intros Hr. revert i.
  induction Hr as [|s ev Hr IH Hen].
  - intros i. unfold mount, prefill, editingRow; simpl.
    destruct (effectResetsToEmpty p); discriminate.
  - intros i. destruct (fire_cells p ev s) as (Hrows & Hid & Hopen & _).
    unfold ids. rewrite Hrows, Hid, Hopen. clear Hrows Hid Hopen.
    destruct ev as [| row | row | | id confirmed | | v |]; simpl.
    + rewrite handleAddNew_eq. simpl. discriminate.
    + rewrite handleEdit_eq. simpl. intros Hi. inversion Hi; subst.
      split; [reflexivity|]. apply in_map. exact Hen.
    + apply IH.
    + apply IH.
    + destruct confirmed; [|apply IH].
      rewrite handleDelete_eq. simpl.
      destruct (JS.idEq id (editingId s)) eqn:Hd; [discriminate|].
      intros Hi. destruct (IH i Hi) as [Ho Hin]. split; [assumption|].
      apply idEq_false in Hd. unfold ids in Hin.
      apply in_map_iff in Hin as (r & Hri & Hr').
      apply in_map_iff. exists r. split; [assumption|].
      apply In_deleteRow. split; [assumption|]. congruence.
    + discriminate.
    + apply IH.
    + destruct (validation_decided p s) as [Hf|Hp].
      * apply handleSubmit_fails in Hf. destruct Hf as (-> & -> & -> & _).
        apply IH.
      * rewrite (handleSubmit_passes Hp). simpl. discriminate.
Qed.

(** X3. While a record is being edited the form is open and the record is
    in the store: in every reachable state a non-null [editingId] is the
    id of a stored record, so [editingRow] is found. *)
Theorem editing_refers_to_stored_record `{E : Entity} (p : Page E)
    (seed : list Row) (s : PageState E) (i : Z) :
  reachable p seed s ->
  editingId s = Some i ->
  isFormOpen s = true /\ In i (ids s) /\
  exists r, editingRow s = Some r /\ rowId r = i /\ In r (rows s).
Proof.
  intros Hr Hi. destruct (reachable_editing_stored Hr Hi) as [Ho Hin].
  repeat split; auto.
  unfold editingRow. rewrite Hi. unfold ids in Hin.
  apply in_map_iff in Hin as (r & Hri & Hr').
  destruct (find (fun r0 => rowId r0 =? i) (rows s)) as [r0|] eqn:Hf.
  - exists r0. apply find_some in Hf as [Hin0 Heq]. apply Z.eqb_eq in Heq. auto.
  - eapply find_none in Hf; eauto. rewrite Hri, Z.eqb_refl in Hf. discriminate.
Qed.

(** X4. A handler raises only in one situation: a submit that passes the
    schema and hits a uniqueness test on a page that does not bind
    [setError]. Add New, Edit, View, Delete, Cancel and typing always run
    to their end, and so does every submit on a page that binds
    [setError] or has no uniqueness test. *)
Theorem handler_raises_only_on_unbound_setError `{E : Entity} (p : Page E)
    (ev : Event E) (s : PageState E) :
  completed (dispatch p ev s) = false <->
  ev = SubmitForm /\
  setErrorBound p = false /\
  Yup.validate (schema p) (RHF.values (form s)) = [] /\
  firstDuplicate p (rows s) (editingId s) (RHF.values (form s)) <> None.
Proof.
  destruct ev as [| row | row | | id confirmed | | v |]; simpl;
    try (split; [discriminate|intros (Hev & _); discriminate]).
  - rewrite handleAddNew_eq. split; [discriminate|intros (Hev & _); discriminate].
  - rewrite handleEdit_eq. split; [discriminate|intros (Hev & _); discriminate].
  - destruct confirmed;
      [rewrite handleDelete_eq|];
      (split; [discriminate|intros (Hev & _); discriminate]).
  - rewrite handleSubmit_completed.
    destruct (Yup.validate (schema p) (RHF.values (form s))) as [|e errs].
    + destruct (firstDuplicate p (rows s) (editingId s) (RHF.values (form s)))
        as [c|].
      * split.
        -- intros Hb. repeat split; auto. discriminate.
        -- intros (_ & Hb & _). exact Hb.
      * split; [discriminate|]. intros (_ & _ & _ & Hn). congruence.
    + split; [discriminate|]. intros (_ & _ & Hv & _). discriminate.
Qed.

(** X5. A submit closes the form exactly when it passes validation: with
    the form open, after the submit the form is closed and no record is
    being edited if the buffer passes the schema and every uniqueness test
    of the page, and the form is still open otherwise. *)
Theorem submit_closes_form_iff_it_passes `{E : Entity} (p : Page E)
    (s : PageState E) :
  isFormOpen s = true ->
  (isFormOpen (fire p SubmitForm s) = false <-> validationPasses p s) /\
  (validationPasses p s -> editingId (fire p SubmitForm s) = None).
Proof.
  intros Ho. destruct (fire_cells p SubmitForm s) as (_ & Hid & Hopen & _).
  rewrite Hid, Hopen. simpl.
  destruct (validation_decided p s) as [Hf|Hp].
  - pose proof (handleSubmit_fails Hf) as (_ & He & Hop & _).
    rewrite Hop, Ho. split.
    + split; [discriminate|]. intros [Hv Hd]. destruct Hf; congruence.
    + intros [Hv Hd]. destruct Hf; congruence.
  - destruct (handleSubmit_passes_cells Hp) as (He & Hop & _).
    rewrite He, Hop. split; [tauto|auto].
Qed.

(** Ids of a seed with positive ids stay positive. *)
Lemma reachable_ids_positive `{E : Entity} (p : Page E) (seed : list Row)
    (s : PageState E) :
  (forall r, In r seed -> 0 < rowId r) ->
  reachable p seed s ->
  forall i, In i (ids s) -> 0 < i.
Proof.
  intros Hseed Hr. induction Hr as [|s ev Hr IH Hen]; intros i Hi.
  - unfold ids in Hi. rewrite rows_mount in Hi.
    apply in_map_iff in Hi as (r & <- & Hin). now apply Hseed.
  - destruct (ids_fire p ev s) as [H|[(id & H)|H]]; rewrite H in Hi.
    + now apply IH.
    + apply filter_In in Hi as [Hi _]. now apply IH.
    + apply in_app_or in Hi as [Hi|[<-|[]]]; [now apply IH|].
      destruct (nextId_spec (rows s)) as [[_ ->]|(m & [Hm _] & ->)]; [lia|].
      specialize (IH m Hm). lia.
Qed.

(** X6. The pages test [editingId] in two ways, by [=== null] (form
    title, the branch of [onSubmit], [disabled]) and by truthiness
    ([readOnly={!!editingId}], [editingId ? "Update" : "Save"]), which
    differ on the id 0. From a seed whose ids are positive every stored id
    stays positive and the two tests agree in every reachable state, so
    the key input is locked and the button reads Update exactly while a
    record is being edited. *)
Theorem truthiness_of_editingId_is_safe `{E : Entity} (p : Page E)
    (seed : list Row) (s : PageState E) :
  (forall r, In r seed -> 0 < rowId r) ->
  reachable p seed s ->
  (forall i, In i (ids s) -> 0 < i) /\
  truthy (editingId s) = notNull (editingId s) /\
  keyReadOnly (editingId s) = keyDisabled (editingId s) /\
  submitLabelByTruth (editingId s) = submitLabelByNull (editingId s).
Proof.
  intros Hseed Hr.
  pose proof (reachable_ids_positive Hseed Hr) as Hpos.
  assert (Ht : truthy (editingId s) = notNull (editingId s)).
  { destruct (editingId s) as [i|] eqn:He; [|reflexivity]. simpl.
    destruct (reachable_editing_stored Hr He) as [_ Hin].
    specialize (Hpos i Hin).
    destruct (Z.eqb_spec i 0); [lia|reflexivity]. }
  unfold keyReadOnly, keyDisabled, submitLabelByTruth, submitLabelByNull.
  rewrite Ht. auto.
Qed.

Lemma find_by_id `{E : Entity} (rs : list Row) (r : Row) :
  NoDup (map rowId rs) -> In r rs ->
  find (fun x => rowId x =? rowId r) rs = Some r.
Proof.
  induction rs as [|a rs IH]; simpl; [intros _ []|].
  intros Hnd Hin. inversion Hnd as [|? ? Hna Hnd']; subst.
  destruct Hin as [->|Hin]; [now rewrite Z.eqb_refl|].
  destruct (Z.eqb_spec (rowId a) (rowId r)) as [Heq|Hne]; [|now apply IH].
  exfalso. apply Hna. rewrite Heq. now apply in_map.
Qed.

(** X7. Edit on a row of the table loads that row into the buffer: when
    the stored ids are distinct and the row is not the one already being
    edited, the buffer and its defaults become the row's values and the
    errors are cleared; when that row is already being edited the form is
    left as it is, so what the user has typed is kept. *)
Theorem edit_prefills_buffer `{E : Entity} (p : Page E) (row : Row)
    (s : PageState E) :
  NoDup (ids s) ->
  In row (rows s) ->
  (editingRow s <> Some row ->
   form (fire p (ClickEdit row) s) =
     RHF.mkForm (rowValues row) (rowValues row) [] /\
   dataKey (RHF.values (form (fire p (ClickEdit row) s))) = rowKey row) /\
  (editingRow s = Some row ->
   form (fire p (ClickEdit row) s) = form s).
Proof.
  intros Hnd Hin. unfold fire, dispatch. rewrite handleEdit_eq. cbn [stateOf].
  unfold afterRender.
  set (a := mkPageState (rows s) (Some (rowId row)) true
              (if handlersCloseView p then None else viewed s) (form s)).
  assert (Ha : editingRow a = Some row).
  { unfold editingRow, a. simpl. now apply find_by_id. }
  rewrite Ha. split.
  - intros Hne.
    destruct (sameRow (editingRow s) (Some row)) eqn:Hs.
    + apply sameRow_true in Hs. contradiction.
    + unfold prefill. rewrite Ha. simpl. split; [reflexivity|].
      apply dataKey_rowValues.
  - intros He. rewrite He, sameRow_refl. reflexivity.
Qed.

Section EmptyBuffer.
Context {E : Entity}.
Variable p : Page E.
Hypothesis Hempty : effectResetsToEmpty p = true.

(** No handler changes the defaults of the form. *)
Lemma defaultValues_dispatch (ev : Event E) (s : PageState E) :
  RHF.defaultValues (form (stateOf (dispatch p ev s))) =
  RHF.defaultValues (form s).
Proof.
  destruct ev as [| row | row | | id confirmed | | v |]; simpl; try reflexivity.
  - rewrite handleAddNew_eq. reflexivity.
  - rewrite handleEdit_eq. reflexivity.
  - destruct confirmed; [|reflexivity]. rewrite handleDelete_eq. simpl.
    destruct (JS.idEq id (editingId s)); reflexivity.
  - destruct (validation_decided p s) as [Hf|Hp].
    + apply handleSubmit_fails in Hf. apply Hf.
    + rewrite (handleSubmit_passes Hp). reflexivity.
Qed.

Lemma editingRow_afterRender (before after : PageState E) :
  editingRow (afterRender p before after) = editingRow after.
Proof.
  destruct (afterRender_frame p before after) as (Hr & He & _).
  unfold editingRow. now rewrite Hr, He.
Qed.

(** While no record is being edited the defaults of the form are the
    empty values. *)
Lemma reachable_defaults_empty (seed : list Row) (s : PageState E) :
  reachable p seed s ->
  editingRow s = None ->
  RHF.defaultValues (form s) = emptyValues.
Proof.
  intros Hr. induction Hr as [|s ev Hr IH Hen].
  - intros _. unfold mount, prefill, editingRow; simpl. now rewrite Hempty.
  - unfold fire. rewrite editingRow_afterRender. intros Hnone.
    unfold afterRender.
    destruct (sameRow (editingRow s) (editingRow (stateOf (dispatch p ev s))))
      eqn:Hs.
    + apply sameRow_true in Hs. rewrite Hnone in Hs.
      rewrite defaultValues_dispatch. auto.
    + unfold prefill. rewrite Hnone, Hempty. reflexivity.
Qed.

End EmptyBuffer.

(** X8. On the pages whose prefill effect clears with [reset({...empty})]
    (the three pages with an inline panel and the first Organization
    page), the form never shows left-over data in create mode: in every
    reachable state Add New and Cancel leave an empty buffer without
    errors, whatever record was edited or typed before. *)
Theorem add_new_opens_empty_buffer `{E : Entity} (p : Page E)
    (seed : list Row) (s : PageState E) :
  effectResetsToEmpty p = true ->
  reachable p seed s ->
  form (fire p ClickAddNew s) = RHF.mkForm emptyValues emptyValues [] /\
  form (fire p ClickCancel s) = RHF.mkForm emptyValues emptyValues [].
Proof.
  intros Hempty Hr.
  assert (Hgen : forall a,
            editingRow a = None ->
            form a = RHF.reset None (form s) ->
            form (afterRender p s a) = RHF.mkForm emptyValues emptyValues []).
  { intros a Ha Hf. unfold afterRender.
    destruct (sameRow (editingRow s) (editingRow a)) eqn:Hs.
    - apply sameRow_true in Hs. rewrite Ha in Hs.
      rewrite Hf. simpl. now rewrite (reachable_defaults_empty Hempty Hr Hs).
    - unfold prefill. rewrite Ha, Hempty. reflexivity. }
  split; unfold fire, dispatch.
  - rewrite handleAddNew_eq. apply Hgen; reflexivity.
  - rewrite handleCancel_eq. apply Hgen; reflexivity.
Qed.

Lemma NoDup_map_injective {A B} (f : A -> B) (l : list A) (a b : A) :
  NoDup (map f l) -> In a l -> In b l -> f a = f b -> a = b.
Proof.
  induction l as [|x l IH]; simpl; [intros _ []|].
  intros Hnd Ha Hb Hf. inversion Hnd as [|? ? Hx Hnd']; subst.
  destruct Ha as [->|Ha], Hb as [->|Hb]; auto.
  - exfalso. apply Hx. rewrite Hf. now apply in_map.
  - exfalso. apply Hx. rewrite <- Hf. now apply in_map.
Qed.

(** X9. On a page that tests a field for uniqueness, the store never holds
    two different records whose values of that field are equal up to
    letter case, in any state reachable from a seed that has none and
    whose ids are distinct: the natural keys on every page with the
    duplicate test, and also the tenant codes on the Organization page of
    unnamed/part_005. *)
Theorem checked_fields_stay_unique `{E : Entity} (p : Page E)
    (seed : list Row) (s : PageState E) (c : UniqueCheck E) :
  (forall c', In c' (uniqueChecks p) -> coherent c') ->
  In c (uniqueChecks p) ->
  uniqueFor c seed ->
  NoDup (map rowId seed) ->
  reachable p seed s ->
  forall r1 r2, In r1 (rows s) -> In r2 (rows s) ->
    JS.toLowerCase (ucRow c r1) = JS.toLowerCase (ucRow c r2) ->
    r1 = r2.
Proof.
  intros Hcoh Hc Hseed Hnd Hr r1 r2 H1 H2 Hk.
  apply (NoDup_map_injective rowId (rows s)); auto.
  - exact (reachable_NoDup_ids Hnd Hr).
  - exact (reachable_uniqueFor Hcoh Hc Hseed Hr r1 r2 H1 H2 Hk).
Qed.

(* ================================================================== *)
(** * What the schemas accept *)

Lemma validate_nil_iff {V} (sch : Yup.Schema V) (v : V) :
  Yup.validate sch v = [] <-> Forall (fun f => Yup.checkField f v = None) sch.
Proof.
  induction sch as [|f r IH]; simpl.
  - split; auto.
  - destruct (Yup.checkField f v) as [e|] eqn:Hf.
    + split; [discriminate|]. intros H. inversion H; congruence.
    + rewrite IH. split; [intros H; constructor; auto|].
      intros H. now inversion H.
Qed.

Lemma required_only_passes {V} (name msg : string) (get : V -> string) (v : V) :
  Yup.checkField (Yup.mkField name get [Yup.required msg]) v = None <->
  get v <> EmptyString.
Proof.
  unfold Yup.checkField; simpl.
  destruct (String.eqb_spec (get v) EmptyString) as [He|He]; simpl.
  - split; [discriminate|contradiction].
  - split; auto.
Qed.

Lemma required_digits_passes {V} (name m1 m2 : string) (lo hi : nat)
    (get : V -> string) (v : V) :
  (0 < lo)%nat ->
  Yup.checkField
    (Yup.mkField name get [Yup.required m1; Yup.matchesDigits lo hi m2]) v = None <->
  DigitsBetween lo hi (get v).
Proof.
  intros Hlo. unfold Yup.checkField; simpl.
  destruct (String.eqb_spec (get v) EmptyString) as [He|He]; simpl.
  - split; [discriminate|]. intros [_ Hl]. rewrite He in Hl. simpl in Hl. lia.
  - destruct (JS.matchesDigits lo hi (get v)) eqn:Hm.
    + apply matchesDigits_spec in Hm. tauto.
    + apply matchesDigits_false in Hm. split; [discriminate|contradiction].
Qed.

Lemma email_required_passes {V} (name m1 m2 : string) (rEmail : string -> bool)
    (get : V -> string) (v : V) :
  Yup.checkField
    (Yup.mkField name get [Yup.email rEmail m1; Yup.required m2]) v = None <->
  get v <> EmptyString /\ rEmail (get v) = true.
Proof.
  unfold Yup.checkField; simpl.
  destruct (String.eqb_spec (get v) EmptyString) as [He|He]; simpl.
  - split; [discriminate|tauto].
  - destruct (rEmail (get v)); simpl.
    + tauto.
    + split; [discriminate|]. intros [_ H]. discriminate.
Qed.

Lemma required_max_passes {V} (name m1 m2 : string) (n : nat)
    (get : V -> string) (v : V) :
  Yup.checkField
    (Yup.mkField name get [Yup.required m1; Yup.max n m2]) v = None <->
  get v <> EmptyString /\ (String.length (get v) <= n)%nat.
Proof.
  unfold Yup.checkField; simpl.
  destruct (String.eqb_spec (get v) EmptyString) as [He|He]; simpl.
  - split; [discriminate|tauto].
  - destruct (Nat.leb_spec (String.length (get v)) n).
    + tauto.
    + split; [discriminate|]. intros [_ H']. lia.
Qed.

Local Ltac schema_forall :=
  repeat rewrite Forall_cons_iff;
  repeat rewrite required_only_passes.

(** X10. What each schema accepts. The resolver reports no error exactly
    when every field of the form is non-empty and, for Organization, the
    email has email shape, the contact number is 8 to 15 digits and the
    pin code 5 to 6 digits; for Location, the pincode is 5 to 6 digits;
    for Subsidiary, the code has at most 20 characters. *)
Theorem schemas_accept_exactly :
  (forall rEmail v,
     Yup.validate (organizationSchema rEmail) v = [] <->
     OV.organizationName v <> EmptyString /\
     OV.organizationCode v <> EmptyString /\
     OV.registrationNumber v <> EmptyString /\
     (OV.emailId v <> EmptyString /\ rEmail (OV.emailId v) = true) /\
     DigitsBetween 8 15 (OV.contactNumber v) /\
     OV.addressLine1 v <> EmptyString /\
     OV.city v <> EmptyString /\
     DigitsBetween 5 6 (OV.pinCode v) /\
     OV.tenantCode v <> EmptyString /\
     OV.status v <> EmptyString /\
     OV.financialYearStart v <> EmptyString) /\
  (forall v,
     Yup.validate subsidiarySchema v = [] <->
     SV.subsidiaryName v <> EmptyString /\
     (SV.subsidiaryCode v <> EmptyString /\
      (String.length (SV.subsidiaryCode v) <= 20)%nat) /\
     SV.subsidiaryDescription v <> EmptyString /\
     SV.locationCode v <> EmptyString /\
     SV.organizationCode v <> EmptyString) /\
  (forall msg v,
     Yup.validate (locationSchema msg) v = [] <->
     LV.locationCode v <> EmptyString /\
     LV.locationName v <> EmptyString /\
     LV.regionCode v <> EmptyString /\
     LV.countryCode v <> EmptyString /\
     LV.stateCode v <> EmptyString /\
     LV.city v <> EmptyString /\
     DigitsBetween 5 6 (LV.pincode v)) /\
  (forall v,
     Yup.validate designationSchema v = [] <->
     DV.designationCode v <> EmptyString /\
     DV.designationName v <> EmptyString).
Proof.
  repeat match goal with |- _ /\ _ => split end; intros;
    rewrite validate_nil_iff;
    unfold organizationSchema, subsidiarySchema, locationSchema, designationSchema;
    schema_forall;
    rewrite ?email_required_passes, ?required_max_passes;
    rewrite ?required_digits_passes by lia;
    rewrite Forall_nil_iff; tauto.
Qed.

(* ================================================================== *)
(** * One record at a time *)

Lemma deleteRow_absent `{E : Entity} (id : Z) (rs : list Row) :
  ~ In id (map rowId rs) -> deleteRow id rs = rs.
Proof.
  unfold deleteRow. induction rs as [|r rs IH]; simpl; [reflexivity|].
  intros Hout. destruct (Z.eqb_spec (rowId r) id) as [Heq|Hne]; simpl.
  - exfalso. apply Hout. now left.
  - f_equal. apply IH. intros Hin. apply Hout. now right.
Qed.

Lemma updateRows_absent `{E : Entity} (id : Z) (data : Values) (rs : list Row) :
  ~ In id (map rowId rs) -> updateRows id data rs = rs.
Proof.
  unfold updateRows. induction rs as [|r rs IH]; simpl; [reflexivity|].
  intros Hout. destruct (Z.eqb_spec (rowId r) id) as [Heq|Hne].
  - exfalso. apply Hout. now left.
  - f_equal. apply IH. intros Hin. apply Hout. now right.
Qed.

Lemma NoDup_ids_split `{E : Entity} (l1 l2 : list Row) (r : Row) :
  NoDup (map rowId (l1 ++ r :: l2)) ->
  ~ In (rowId r) (map rowId l1) /\ ~ In (rowId r) (map rowId l2).
Proof.
  rewrite map_app. simpl. intros Hnd.
  apply NoDup_remove_2 in Hnd. split; intros Hin; apply Hnd, in_or_app; auto.
Qed.

(** X11. A confirmed Delete on a row of the table removes that record and
    nothing else: in every state reachable from a seed with distinct ids
    the other records stay, in the same order, and the table is one record
    shorter. *)
Theorem delete_removes_exactly_one_record `{E : Entity} (p : Page E)
    (seed : list Row) (s : PageState E) (l1 l2 : list Row) (r : Row) :
  NoDup (map rowId seed) ->
  reachable p seed s ->
  rows s = l1 ++ r :: l2 ->
  rows (fire p (ClickDelete (rowId r) true) s) = l1 ++ l2 /\
  S (length (rows (fire p (ClickDelete (rowId r) true) s))) = length (rows s).
Proof.
  intros Hseed Hr Hrows.
  pose proof (reachable_NoDup_ids Hseed Hr) as Hnd. unfold ids in Hnd.
  rewrite Hrows in Hnd. destruct (NoDup_ids_split _ _ _ Hnd) as [H1 H2].
  assert (Hdel : rows (fire p (ClickDelete (rowId r) true) s) = l1 ++ l2).
  { rewrite rows_fire. unfold dispatch. rewrite handleDelete_eq. simpl. rewrite Hrows.
    unfold deleteRow. rewrite filter_app. simpl. rewrite Z.eqb_refl. simpl.
    fold (deleteRow (rowId r) l1). fold (deleteRow (rowId r) l2).
    now rewrite !deleteRow_absent. }
  split; [exact Hdel|]. rewrite Hdel, Hrows, !length_app. simpl. lia.
Qed.

(** X12. A passing submit made while editing changes the edited record
    and nothing else: in every state reachable from a seed with distinct
    ids the records before and after it are untouched and keep their
    places, and the number of records is the same. *)
Theorem update_changes_exactly_one_record `{E : Entity} (p : Page E)
    (seed : list Row) (s : PageState E) (l1 l2 : list Row) (R : Row) :
  NoDup (map rowId seed) ->
  reachable p seed s ->
  rows s = l1 ++ R :: l2 ->
  editingId s = Some (rowId R) ->
  validationPasses p s ->
  rows (fire p SubmitForm s) = l1 ++ patchRow R (RHF.values (form s)) :: l2 /\
  length (rows (fire p SubmitForm s)) = length (rows s).
Proof.
  intros Hseed Hr Hrows He Hp.
  pose proof (reachable_NoDup_ids Hseed Hr) as Hnd. unfold ids in Hnd.
  rewrite Hrows in Hnd. destruct (NoDup_ids_split _ _ _ Hnd) as [H1 H2].
  assert (Hupd : rows (fire p SubmitForm s) =
                 l1 ++ patchRow R (RHF.values (form s)) :: l2).
  { rewrite rows_fire. unfold dispatch. rewrite (handleSubmit_passes Hp). simpl.
    rewrite He, Hrows. unfold updateRows. rewrite map_app. simpl.
    rewrite Z.eqb_refl.
    fold (updateRows (rowId R) (RHF.values (form s)) l1).
    fold (updateRows (rowId R) (RHF.values (form s)) l2).
    now rewrite !updateRows_absent. }
  split; [exact Hupd|]. rewrite Hupd, Hrows, !length_app. reflexivity.
Qed.

(** X13. Delete and update of an id that no record has are no-ops on the
    store, and deleting the same id twice is the same as deleting it
    once. *)
Theorem missing_id_is_a_no_op `{E : Entity} (id : Z) (data : Values)
    (rs : list Row) :
  (~ In id (map rowId rs) ->
   deleteRow id rs = rs /\ updateRows id data rs = rs) /\
  deleteRow id (deleteRow id rs) = deleteRow id rs.
Proof.
  split.
  - intros Hout. split; [now apply deleteRow_absent|now apply updateRows_absent].
  - apply deleteRow_absent. intros Hin.
    apply in_map_iff in Hin as (r & Hid & Hr).
    apply In_deleteRow in Hr. tauto.
Qed.

(** X14. On the pages whose handlers close the view (the three pages with
    an inline panel) the view never shows a deleted record: in every
    reachable state the id of the viewed record is the id of a stored
    record. *)
Theorem inline_view_shows_a_stored_id `{E : Entity} (p : Page E)
    (seed : list Row) (s : PageState E) (v : Row) :
  handlersCloseView p = true ->
  reachable p seed s ->
  viewed s = Some v ->
  In (rowId v) (ids s).
Proof.
  intros Hc Hr. revert v. induction Hr as [|s ev Hr IH Hen]; intros v.
  - unfold mount, prefill, editingRow; simpl.
    destruct (effectResetsToEmpty p); discriminate.
  - destruct (fire_cells p ev s) as (Hrows & _ & _ & Hv).
    unfold ids. rewrite Hrows, Hv. clear Hrows Hv.
    destruct ev as [| row | row | | id confirmed | | x |]; simpl.
    + rewrite handleAddNew_eq. simpl. rewrite Hc. discriminate.
    + rewrite handleEdit_eq. simpl. rewrite Hc. discriminate.
    + intros Hv. inversion Hv; subst. apply in_map. exact Hen.
    + discriminate.
    + destruct confirmed; [|apply IH].
      rewrite handleDelete_eq. simpl. rewrite Hc. simpl.
      destruct (isViewing s id) eqn:Hi; [discriminate|].
      intros Hv. specialize (IH v Hv). unfold ids in IH.
      apply in_map_iff in IH as (r & Hri & Hr').
      apply in_map_iff. exists r. split; [assumption|].
      apply In_deleteRow. split; [assumption|].
      unfold isViewing in Hi. rewrite Hv in Hi.
      apply Z.eqb_neq in Hi. congruence.
    + apply IH.
    + apply IH.
    + destruct (validation_decided p s) as [Hf|Hp].
      * apply handleSubmit_fails in Hf. destruct Hf as (-> & _ & _ & -> & _).
        apply IH.
      * rewrite (handleSubmit_passes Hp). simpl. intros Hv.
        specialize (IH v Hv). unfold ids in IH.
        destruct (editingId s); [now rewrite map_rowId_updateRows|].
        rewrite map_app. apply in_or_app. now left.
Qed.

(* ================================================================== *)
(** * The order of the table *)

Lemma StronglySorted_filter_lt (f : Z -> bool) (l : list Z) :
  StronglySorted Z.lt l -> StronglySorted Z.lt (filter f l).
Proof.
  induction 1 as [|a l Hs IH Hall]; simpl; [constructor|].
  destruct (f a); [|assumption]. constructor; [assumption|].
  apply Forall_forall. intros x Hx. apply filter_In in Hx as [Hx _].
  rewrite Forall_forall in Hall. now apply Hall.
Qed.

Lemma StronglySorted_snoc_lt (l : list Z) (x : Z) :
  StronglySorted Z.lt l -> (forall y, In y l -> y < x) ->
  StronglySorted Z.lt (l ++ [x]).
Proof.
  induction 1 as [|a l Hs IH Hall]; simpl; intros Hx.
  - repeat constructor.
  - constructor.
    + apply IH. intros y Hy. apply Hx. now right.
    + apply Forall_forall. intros y Hy. apply in_app_or in Hy as [Hy|[<-|[]]].
      * rewrite Forall_forall in Hall. now apply Hall.
      * apply Hx. now left.
Qed.

Lemma sorted_last_is_max (l : list Z) (x d : Z) :
  StronglySorted Z.lt (x :: l) ->
  In (last (x :: l) d) (x :: l) /\ forall y, In y (x :: l) -> y <= last (x :: l) d.
Proof.
  revert x. induction l as [|a l IH]; intros x Hs.
  - simpl. split; [now left|intros y [<-|[]]; lia].
  - inversion Hs as [|? ? Hs' Hall]; subst.
    destruct (IH a Hs') as [Hin Hle].
    change (last (x :: a :: l) d) with (last (a :: l) d).
    split; [now right|].
    intros y [<-|Hy]; [|now apply Hle].
    rewrite Forall_forall in Hall.
    specialize (Hall _ Hin). lia.
Qed.

(** X15. The table stays in creation order: from a seed listed by
    strictly increasing id, the records of every reachable store are in
    strictly increasing order of id, so the id given to the next record
    is the id of the last row plus one. *)
Theorem rows_stay_sorted_by_id `{E : Entity} (p : Page E) (seed : list Row)
    (s : PageState E) :
  StronglySorted Z.lt (map rowId seed) ->
  reachable p seed s ->
  StronglySorted Z.lt (ids s) /\
  (rows s <> [] -> nextId (rows s) = last (ids s) 0 + 1).
Proof.
  intros Hseed Hr.
  assert (Hs : StronglySorted Z.lt (ids s)).
  { induction Hr as [|s ev Hr IH Hen].
    - unfold ids. now rewrite rows_mount.
    - destruct (ids_fire p ev s) as [H|[(id & H)|H]]; rewrite H.
      + assumption.
      + now apply StronglySorted_filter_lt.
      + apply StronglySorted_snoc_lt; [assumption|].
        intros y Hy. unfold ids in Hy. apply in_map_iff in Hy as (r & <- & Hin).
        now apply nextId_above. }
  split; [exact Hs|].
  intros Hne. unfold nextId, ids in *.
  destruct (rows s) as [|r rs]; [contradiction|]. simpl map in *.
  destruct (sorted_last_is_max 0 Hs) as [Hin Hle].
  destruct (Math_max_spec (rowId r) (map rowId rs)) as [Hmin Hmle].
  specialize (Hle _ Hmin). specialize (Hmle _ Hin). lia.
Qed.

(* ================================================================== *)
(** * Navigation *)

Lemma show_active (sc : App.Screens) (t : App.Tab) :
  App.active (App.show sc t) = t.
Proof. destruct t; reflexivity. Qed.

Lemma tabEqb_eq (a b : App.Tab) : App.tabEqb a b = true <-> a = b.
Proof. destruct a, b; simpl; split; congruence. Qed.

Lemma show_pageReachable (sc : App.Screens) (t : App.Tab) :
  App.pageReachable sc (App.show sc t).
Proof. destruct t; simpl; constructor. Qed.

(** X16. Screens are isolated and nothing survives navigation. In every
    state of the application the mounted page is in a state it can reach
    on its own from its seed; selecting another tab mounts that page on
    its seed, and coming back mounts the first page on its seed again,
    whatever was created, edited or deleted there before; selecting the
    tab that is already active changes nothing. *)
Theorem navigation_discards_page_state (sc : App.Screens) (m : App.Mounted)
    (t : App.Tab) :
  App.appReachable sc m ->
  App.pageReachable sc m /\
  App.active (App.setActive sc t m) = t /\
  (t = App.active m -> App.setActive sc t m = m) /\
  (t <> App.active m ->
   App.setActive sc t m = App.show sc t /\
   App.setActive sc (App.active m) (App.setActive sc t m) =
     App.show sc (App.active m)).
Proof.
  intros Hr. split.
  { clear t. induction Hr as [|m ev Hr IH Hcan].
    - apply show_pageReachable.
    - destruct ev as [t|e|e|e|e]; simpl.
      + unfold App.setActive. destruct (App.tabEqb t (App.active m));
          [assumption|apply show_pageReachable].
      + destruct m; simpl in *; try contradiction. now apply reach_fire.
      + destruct m; simpl in *; try contradiction. now apply reach_fire.
      + destruct m; simpl in *; try contradiction. now apply reach_fire.
      + destruct m; simpl in *; try contradiction. now apply reach_fire. }
  unfold App.setActive.
  destruct (App.tabEqb t (App.active m)) eqn:Ht.
  - apply tabEqb_eq in Ht.
    split; [congruence|]. split; [reflexivity|]. intros Hne. contradiction.
  - assert (Hne : t <> App.active m).
    { intros Heq. apply tabEqb_eq in Heq. congruence. }
    split; [apply show_active|]. split; [intros Heq; contradiction|].
    intros _. split; [reflexivity|].
    rewrite show_active.
    destruct (App.tabEqb (App.active m) t) eqn:Ht'; [|reflexivity].
    apply tabEqb_eq in Ht'. congruence.
Qed.

(* ================================================================== *)
(** * The further properties at concrete inputs *)

Lemma initialDesignations_ids_distinct : NoDup (map rowId initialDesignations).
Proof. simpl. repeat constructor; simpl; intuition discriminate. Qed.

Lemma initialDesignations_ids_positive :
  forall r, In r initialDesignations -> 0 < rowId r.
Proof. intros r [<-|[<-|[]]]; reflexivity. Qed.

Lemma initialDesignations_ids_sorted :
  StronglySorted Z.lt (map rowId initialDesignations).
Proof. simpl. repeat constructor. Qed.

(** Deleting record 2 of the Designation seed. *)
Lemma store_changes_only_by_submit_or_delete_witness :
  let p := DesignationPage_v2 in
  let s := mount p initialDesignations in
  rows (fire p (ClickDelete 2 true) s) <> rows s /\
  ((@ClickDelete DesignationE 2 true = SubmitForm /\ validationPasses p s) \/
   (exists id, @ClickDelete DesignationE 2 true = ClickDelete id true /\
               In id (ids s))).
Proof.
  cbv zeta.
  assert (Hne : rows (fire DesignationPage_v2 (ClickDelete 2 true)
                        (mount DesignationPage_v2 initialDesignations))
                <> rows (mount DesignationPage_v2 initialDesignations)).
  { intros H. vm_compute in H. discriminate H. }
  split; [exact Hne|].
  exact (proj1 (@store_changes_only_by_submit_or_delete DesignationE
                  DesignationPage_v2 (ClickDelete 2 true)
                  (mount DesignationPage_v2 initialDesignations)) Hne).
Defined.

(** Edit while the inline view is open on the first Designation page. *)
Lemma view_changes_only_by_view_events_witness :
  let p := DesignationPage_v1 in
  let s := fire p (@ClickView DesignationE securityRow)
             (mount p initialDesignations) in
  let ev := @ClickEdit DesignationE securityRow in
  viewed (fire p ev s) <> viewed s /\
  ((exists row, ev = ClickView row) \/
   ev = ClickCloseView \/
   (handlersCloseView p = true /\
    (ev = ClickAddNew \/ (exists row, ev = ClickEdit row) \/
     (exists id, ev = ClickDelete id true /\ isViewing s id = true)))).
Proof.
  cbv zeta.
  assert (Hne : viewed (fire DesignationPage_v1 (@ClickEdit DesignationE securityRow)
                          (fire DesignationPage_v1 (@ClickView DesignationE securityRow)
                             (mount DesignationPage_v1 initialDesignations)))
                <> viewed (fire DesignationPage_v1 (@ClickView DesignationE securityRow)
                             (mount DesignationPage_v1 initialDesignations))).
  { intros H. vm_compute in H. discriminate H. }
  split; [exact Hne|].
  exact (@view_changes_only_by_view_events DesignationE DesignationPage_v1
           (@ClickEdit DesignationE securityRow) _ Hne).
Defined.

Lemma editing_driver_reachable :
  reachable DesignationPage_v2 initialDesignations
    (fire DesignationPage_v2 (@ClickEdit DesignationE driverRow)
       (mount DesignationPage_v2 initialDesignations)).
Proof. apply reach_fire; [constructor|]. simpl. auto. Qed.

(** Editing record 1 of the Designation seed. *)
Lemma editing_refers_to_stored_record_witness :
  let p := DesignationPage_v2 in
  let s := fire p (@ClickEdit DesignationE driverRow) (mount p initialDesignations) in
  (reachable p initialDesignations s /\ editingId s = Some 1) /\
  isFormOpen s = true /\ In 1 (ids s) /\
  exists r, editingRow s = Some r /\ rowId r = 1 /\ In r (rows s).
Proof.
  cbv zeta. split; [split; [exact editing_driver_reachable|reflexivity]|].
  exact (@editing_refers_to_stored_record DesignationE DesignationPage_v2
           initialDesignations _ 1 editing_driver_reachable eq_refl).
Defined.

(** Submitting [MGR] from the open form. *)
Lemma submit_closes_form_iff_it_passes_witness :
  let p := DesignationPage_v2 in
  let s := run p [ClickAddNew; @Typing DesignationE managerValues]
             (mount p initialDesignations) in
  isFormOpen s = true /\
  (isFormOpen (fire p SubmitForm s) = false <-> validationPasses p s) /\
  (validationPasses p s -> editingId (fire p SubmitForm s) = None).
Proof.
  cbv zeta. split; [reflexivity|].
  exact (@submit_closes_form_iff_it_passes DesignationE DesignationPage_v2
           (run DesignationPage_v2 [ClickAddNew; @Typing DesignationE managerValues]
              (mount DesignationPage_v2 initialDesignations)) eq_refl).
Defined.

(** The Designation seed, whose ids are 1 and 2. *)
Lemma truthiness_of_editingId_is_safe_witness :
  let p := DesignationPage_v2 in
  let s := fire p (@ClickEdit DesignationE driverRow) (mount p initialDesignations) in
  ((forall r, In r initialDesignations -> 0 < rowId r) /\
   reachable p initialDesignations s) /\
  truthy (editingId s) = notNull (editingId s).
Proof.
  cbv zeta.
  split; [split; [exact initialDesignations_ids_positive
                 |exact editing_driver_reachable]|].
  exact (proj1 (proj2 (@truthiness_of_editingId_is_safe DesignationE
                         DesignationPage_v2 initialDesignations _
                         initialDesignations_ids_positive
                         editing_driver_reachable))).
Defined.

(** Edit on record 1 from the mounted Designation page. *)
Lemma edit_prefills_buffer_witness :
  let p := DesignationPage_v2 in
  let s := mount p initialDesignations in
  (NoDup (ids s) /\ In driverRow (rows s) /\ editingRow s <> Some driverRow) /\
  form (fire p (@ClickEdit DesignationE driverRow) s) =
    RHF.mkForm (DV.mk "DRV" "Driver") (DV.mk "DRV" "Driver") [].
Proof.
  cbv zeta.
  assert (Hin : In driverRow (rows (mount DesignationPage_v2 initialDesignations))).
  { simpl. auto. }
  assert (Hne : editingRow
                  (mount DesignationPage_v2 initialDesignations) <> Some driverRow).
  { intros H. vm_compute in H. discriminate H. }
  split; [split; [exact initialDesignations_ids_distinct|split; assumption]|].
  exact (proj1 (proj1 (@edit_prefills_buffer DesignationE DesignationPage_v2
                         driverRow (mount DesignationPage_v2 initialDesignations)
                         initialDesignations_ids_distinct Hin) Hne)).
Defined.

Lemma edited_and_typed_reachable :
  reachable DesignationPage_v1 initialDesignations
    (run DesignationPage_v1
       [@ClickEdit DesignationE driverRow; @Typing DesignationE guardValues]
       (mount DesignationPage_v1 initialDesignations)).
Proof. apply reachable_run; [constructor|]. simpl. auto. Qed.

(** Add New after a record was loaded and typed over, on the first
    Designation page. *)
Lemma add_new_opens_empty_buffer_witness :
  let p := DesignationPage_v1 in
  let s := run p [@ClickEdit DesignationE driverRow; @Typing DesignationE guardValues]
             (mount p initialDesignations) in
  (effectResetsToEmpty p = true /\ reachable p initialDesignations s /\
   RHF.values (form s) = guardValues) /\
  form (fire p ClickAddNew s) =
    RHF.mkForm (DV.mk EmptyString EmptyString) (DV.mk EmptyString EmptyString) [].
Proof.
  cbv zeta.
  split; [split; [reflexivity|split; [exact edited_and_typed_reachable|reflexivity]]|].
  exact (proj1 (@add_new_opens_empty_buffer DesignationE DesignationPage_v1
                  initialDesignations _ eq_refl edited_and_typed_reachable)).
Defined.

Lemma manager_created_reachable :
  reachable DesignationPage_v2 initialDesignations
    (run DesignationPage_v2
       [ClickAddNew; @Typing DesignationE managerValues; SubmitForm]
       (mount DesignationPage_v2 initialDesignations)).
Proof. apply reachable_run; [constructor|]. simpl. auto. Qed.

(** The Designation store after [MGR] was created. *)
Lemma checked_fields_stay_unique_witness :
  let p := DesignationPage_v2 in
  let s := run p [ClickAddNew; @Typing DesignationE managerValues; SubmitForm]
             (mount p initialDesignations) in
  (In keyCheck (uniqueChecks p) /\ uniqueFor keyCheck initialDesignations /\
   NoDup (map rowId initialDesignations) /\ reachable p initialDesignations s) /\
  forall r1 r2 : D.t, In r1 (rows s) -> In r2 (rows s) ->
    JS.toLowerCase (D.designationCode r1) = JS.toLowerCase (D.designationCode r2) ->
    r1 = r2.
Proof.
  cbv zeta.
  split; [split; [now left|split; [exact initialDesignations_keys_unique
                                 |split; [exact initialDesignations_ids_distinct
                                         |exact manager_created_reachable]]]|].
  exact (@checked_fields_stay_unique DesignationE DesignationPage_v2
           initialDesignations _ keyCheck
           (proj1 (proj2 source_pages_coherent))
           (or_introl eq_refl) initialDesignations_keys_unique
           initialDesignations_ids_distinct manager_created_reachable).
Defined.

(** Deleting the second of the two seed records. *)
Lemma delete_removes_exactly_one_record_witness :
  let p := DesignationPage_v2 in
  let s := mount p initialDesignations in
  (NoDup (map rowId initialDesignations) /\ reachable p initialDesignations s /\
   rows s = [driverRow] ++ securityRow :: []) /\
  rows (fire p (ClickDelete 2 true) s) = [driverRow].
Proof.
  cbv zeta.
  split; [split; [exact initialDesignations_ids_distinct
                 |split; [constructor|reflexivity]]|].
  exact (proj1 (@delete_removes_exactly_one_record DesignationE DesignationPage_v2
                  initialDesignations _ [driverRow] [] securityRow
                  initialDesignations_ids_distinct
                  (reach_mount DesignationPage_v2 initialDesignations) eq_refl)).
Defined.

Lemma editing_security_reachable :
  reachable DesignationPage_v2 initialDesignations
    (run DesignationPage_v2
       [@ClickEdit DesignationE securityRow; @Typing DesignationE guardValues]
       (mount DesignationPage_v2 initialDesignations)).
Proof. apply reachable_run; [constructor|]. simpl. auto. Qed.

(** Renaming the second of the two seed records. *)
Lemma update_changes_exactly_one_record_witness :
  let p := DesignationPage_v2 in
  let s := run p [@ClickEdit DesignationE securityRow; @Typing DesignationE guardValues]
             (mount p initialDesignations) in
  (NoDup (map rowId initialDesignations) /\ reachable p initialDesignations s /\
   rows s = [driverRow] ++ securityRow :: [] /\ editingId s = Some 2 /\
   validationPasses p s) /\
  rows (fire p SubmitForm s) = [driverRow; D.mk 2 "SEC" "Guard"].
Proof.
  cbv zeta.
  split; [split; [exact initialDesignations_ids_distinct
                 |split; [exact editing_security_reachable
                         |split; [reflexivity|split; [reflexivity
                                                     |split; reflexivity]]]]|].
  exact (proj1 (@update_changes_exactly_one_record DesignationE DesignationPage_v2
                  initialDesignations _ [driverRow] [] securityRow
                  initialDesignations_ids_distinct editing_security_reachable
                  eq_refl eq_refl (conj eq_refl eq_refl))).
Defined.

(** The id 9 on the Designation seed. *)
Lemma missing_id_is_a_no_op_witness :
  ~ In 9 (map rowId initialDesignations) /\
  deleteRow 9 initialDesignations = initialDesignations /\
  updateRows 9 managerValues initialDesignations = initialDesignations.
Proof.
  assert (Hout : ~ In 9 (map rowId initialDesignations)).
  { simpl. intuition discriminate. }
  split; [exact Hout|].
  exact (proj1 (@missing_id_is_a_no_op DesignationE 9 managerValues
                  initialDesignations) Hout).
Defined.

Lemma viewing_security_reachable :
  reachable DesignationPage_v1 initialDesignations
    (fire DesignationPage_v1 (@ClickView DesignationE securityRow)
       (mount DesignationPage_v1 initialDesignations)).
Proof. apply reach_fire; [constructor|]. simpl. auto. Qed.

(** The view open on record 2 of the first Designation page. *)
Lemma inline_view_shows_a_stored_id_witness :
  let p := DesignationPage_v1 in
  let s := fire p (@ClickView DesignationE securityRow) (mount p initialDesignations) in
  (handlersCloseView p = true /\ reachable p initialDesignations s /\
   viewed s = Some securityRow) /\
  In 2 (ids s).
Proof.
  cbv zeta.
  split; [split; [reflexivity|split; [exact viewing_security_reachable|reflexivity]]|].
  exact (@inline_view_shows_a_stored_id DesignationE DesignationPage_v1
           initialDesignations _ securityRow eq_refl viewing_security_reachable
           eq_refl).
Defined.

(** The Designation store after [MGR] was created. *)
Lemma rows_stay_sorted_by_id_witness :
  let p := DesignationPage_v2 in
  let s := run p [ClickAddNew; @Typing DesignationE managerValues; SubmitForm]
             (mount p initialDesignations) in
  (StronglySorted Z.lt (map rowId initialDesignations) /\
   reachable p initialDesignations s) /\
  StronglySorted Z.lt (ids s).
Proof.
  cbv zeta.
  split; [split; [exact initialDesignations_ids_sorted
                 |exact manager_created_reachable]|].
  exact (proj1 (@rows_stay_sorted_by_id DesignationE DesignationPage_v2
                  initialDesignations _ initialDesignations_ids_sorted
                  manager_created_reachable)).
Defined.

Lemma designation_tab_reachable :
  App.appReachable sourceScreens
    (App.step sourceScreens (App.OnDesignation (ClickDelete 2 true))
       (App.step sourceScreens (App.Select App.Des) (App.initial sourceScreens))).
Proof.
  apply App.reach_step; [apply App.reach_step; [constructor|exact I]|].
  simpl. auto.
Qed.

(** A record is deleted on the Designation screen, then the user goes to
    Organization and back. *)
Lemma navigation_discards_page_state_witness :
  let sc := sourceScreens in
  let m := App.step sc (App.OnDesignation (ClickDelete 2 true))
             (App.step sc (App.Select App.Des) (App.initial sc)) in
  (App.appReachable sc m /\ App.org <> App.active m) /\
  App.setActive sc (App.active m) (App.setActive sc App.org m) =
    App.DesignationMounted (mount DesignationPage_v2 initialDesignations).
Proof.
  cbv zeta.
  assert (Hne : App.org <>
                App.active
                  (App.step sourceScreens (App.OnDesignation (ClickDelete 2 true))
                     (App.step sourceScreens (App.Select App.Des)
                        (App.initial sourceScreens)))).
  { intros H. vm_compute in H. discriminate H. }
  split; [split; [exact designation_tab_reachable|exact Hne]|].
  exact (proj2 (proj2 (proj2 (proj2 (@navigation_discards_page_state sourceScreens _
                  App.org designation_tab_reachable))) Hne)).
Defined.
